(** * The return workflow of the vidly rental back end

    A shallow embedding of [routes/returns.js], of the [Movie] schema
    ([models/movie.js]) and of the wrapper that hands the exception of an
    async handler to [next], together with the properties of the rental
    life cycle that the specification states about them.

    The second half takes the handler over any Rental model (the lookup
    and the method [return] as parameters) and follows it along sequences
    of requests, and sets the Joi validators [validateReturn],
    [validateMovie] and [validateCustomer] against the validators of the
    Movie and Customer schemas ([models/movie.js], [models/customer.js]).

    Conventions.
    - An ObjectId is a natural number ([N]); equality is the only operation
      the workflow uses on identifiers.
    - A JavaScript [Date] is its millisecond time stamp, a [Z].
    - [numberInStock] is an integer ([Z]); [dailyRentalRate] and [rentalFee]
      are JavaScript numbers that need not be whole, and are rationals ([Q]).
    - The collections of the document store are explicit state; a call to
      the store either settles with a value or rejects with an exception,
      as decided by a plan of faults carried by the world. *)

From Stdlib Require Import ZArith QArith Lia.
From stdpp Require Import base option list gmap strings.

Local Open Scope Z_scope.

(* ===================================================================== *)
(** ** Documents *)
(* ===================================================================== *)

Abbreviation ObjectId := N.

(** The customer snapshot kept inside a rental. *)
Record CustomerSnapshot := mkCustomerSnapshot {
  customer_id : ObjectId;
  customer_name : string;
  customer_phone : string
}.

(** The movie snapshot kept inside a rental. *)
Record MovieSnapshot := mkMovieSnapshot {
  movie_id : ObjectId;
  movie_title : string;
  movie_dailyRentalRate : Q
}.

Record Rental := mkRental {
  rental_id : ObjectId;
  customer : CustomerSnapshot;
  movie : MovieSnapshot;
  dateOut : Z;
  dateReturned : option Z;
  rentalFee : option Q
}.

(** [models/movie.js]: the fields of the Movie schema.  The embedded genre
    document is kept by its name. *)
Record Movie := mkMovie {
  title : string;
  genre : string;
  numberInStock : Z;
  dailyRentalRate : Q
}.

(** The validators the schema puts on [numberInStock]:
    [min: 0, max: 255]. *)
Definition numberInStock_min : Z := 0.
Definition numberInStock_max : Z := 255.

Definition numberInStock_valid (m : Movie) : Prop :=
  numberInStock_min <= numberInStock m <= numberInStock_max.

(** The validators the schema puts on [dailyRentalRate]:
    [min: 0, max: 255]. *)
Definition dailyRentalRate_valid (m : Movie) : Prop :=
  (0 <= dailyRentalRate m)%Q /\ (dailyRentalRate m <= 255)%Q.

(** The body of a return request, after [validateReturn] accepted it:
    both fields are present and are ObjectIds. *)
Record ReturnRequest := mkReturnRequest {
  customerId : ObjectId;
  movieId : ObjectId
}.

(* ===================================================================== *)
(** ** The store, the response and the world of one request *)
(* ===================================================================== *)

(** The Rental collection in its natural order and the Movie collection
    indexed by [_id]. *)
Record Db := mkDb {
  rentals : list Rental;
  movies : gmap N Movie
}.

(** A rejected promise of the store driver. *)
Inductive Exn :=
  | StoreError (msg : string).

(** The calls the workflow makes on the store. *)
Inductive StoreCall :=
  | FindOne (c m : ObjectId)
  | Save (r : Rental)
  | UpdateOne (id : ObjectId).

(** What is observed of a call: that it was issued, and later how it
    settled ([None]: fulfilled, [Some ex]: rejected with [ex]). *)
Inductive Event :=
  | Issued (c : StoreCall)
  | Settled (c : StoreCall) (failure : option Exn).

Inductive Body :=
  | BText (s : string)
  | BRental (r : Rental).

(** The express response object: [statusCode] starts at 200 and [sent] is
    the body once [send] was called. *)
Record Res := mkRes {
  statusCode : Z;
  sent : option Body
}.

Definition fresh_res : Res := mkRes 200 None.

Record World := mkWorld {
  w_db : Db;
  w_now : Z;                       (* the reading of the clock *)
  w_faults : list (option Exn);    (* how the coming store calls settle *)
  w_trace : list Event;            (* the store calls made so far *)
  w_res : Res;
  w_next : option Exn              (* the argument [next] was called with *)
}.

Definition fresh_world (db : Db) (t : Z) (fs : list (option Exn)) : World :=
  mkWorld db t fs [] fresh_res None.

(* ===================================================================== *)
(** ** The monad of a request handler: state and exceptions *)
(* ===================================================================== *)

Inductive Result (A : Type) :=
  | Ok (a : A) (w : World)
  | Throw (ex : Exn) (w : World).
Arguments Ok {A} a w.
Arguments Throw {A} ex w.

Definition M (A : Type) : Type := World -> Result A.

#[global] Instance M_ret : MRet M := fun A a w => Ok a w.

#[global] Instance M_bind : MBind M := fun A B f c w =>
  match c w with
  | Ok a w' => f a w'
  | Throw ex w' => Throw ex w'
  end.

(** [new Date()] *)
Definition Date_now : M Z := fun w => Ok (w_now w) w.

(** [res.status(code)] *)
Definition res_status (code : Z) : M unit := fun w =>
  Ok tt (mkWorld (w_db w) (w_now w) (w_faults w) (w_trace w)
           (mkRes code (sent (w_res w))) (w_next w)).

(** [res.send(body)] *)
Definition res_send (b : Body) : M unit := fun w =>
  Ok tt (mkWorld (w_db w) (w_now w) (w_faults w) (w_trace w)
           (mkRes (statusCode (w_res w)) (Some b)) (w_next w)).

(** An awaited call to the store.  The call is issued, then settles as the
    fault plan says: rejected, the store is left as it was and the
    exception is thrown at the [await]; fulfilled, [run] is applied to the
    store.  An exhausted plan means no more faults. *)
Definition store_call {A : Type} (c : StoreCall) (run : Db -> A * Db) : M A :=
  fun w =>
    match w_faults w with
    | Some ex :: fs =>
        Throw ex (mkWorld (w_db w) (w_now w) fs
                    (w_trace w ++ [Issued c; Settled c (Some ex)])
                    (w_res w) (w_next w))
    | fs =>
        let '(a, db') := run (w_db w) in
        Ok a (mkWorld db' (w_now w) (tail fs)
                (w_trace w ++ [Issued c; Settled c None])
                (w_res w) (w_next w))
    end.

(* ===================================================================== *)
(** ** The Rental model *)
(* ===================================================================== *)

Definition matches (c m : ObjectId) (r : Rental) : bool :=
  bool_decide (customer_id (customer r) = c)
  && bool_decide (movie_id (movie r) = m).

(** The most recent checkout among [best] and the rentals of [l]; of two
    rentals checked out at the same instant the earlier in the collection
    is kept. *)
Fixpoint most_recent (best : Rental) (l : list Rental) : Rental :=
  match l with
  | [] => best
  | r :: l' => most_recent (if dateOut best <? dateOut r then r else best) l'
  end.

(** Modelled from the spec: [Rental.lookup] of [models/rental.js], which is
    not among the sources.  Among the rentals that match both the customer
    and the movie identifier it selects the most recent checkout ([dateOut]
    descending), and it answers the not-found sentinel when none matches. *)
Definition lookup_in (c m : ObjectId) (l : list Rental) : option Rental :=
  match filter (fun r => matches c m r = true) l with
  | [] => None
  | r :: rs => Some (most_recent r rs)
  end.

Definition Rental_lookup (c m : ObjectId) : M (option Rental) :=
  store_call (FindOne c m) (fun db => (lookup_in c m (rentals db), db)).

(** The open question of the specification: whether a part of a day is
    rounded down or up. *)
Inductive DayRounding := RoundDown | RoundUp.

Definition msPerDay : Z := 86400000.

(** Modelled from the spec: the whole-day count between checkout and
    return, [ceil_or_floor(dateReturned - dateOut, in whole days)]. *)
Definition numberOfRentalDays (policy : DayRounding) (out ret : Z) : Z :=
  match policy with
  | RoundDown => (ret - out) / msPerDay
  | RoundUp => - ((out - ret) / msPerDay)
  end.

(** Modelled from the spec: the method [return] of a rental document
    ([models/rental.js], not among the sources), as a function of the
    clock reading: it sets [dateReturned] to the current time and
    [rentalFee] to [numberOfRentalDays * dailyRentalRate]. *)
Definition rental_return_at (policy : DayRounding) (t : Z) (r : Rental) : Rental :=
  mkRental (rental_id r) (customer r) (movie r) (dateOut r)
    (Some t)
    (Some (inject_Z (numberOfRentalDays policy (dateOut r) t)
           * movie_dailyRentalRate (movie r))%Q).

(** [rental.return()]: the method reads the clock; the handler goes on
    with the document in its new state. *)
Definition rental_return (policy : DayRounding) (r : Rental) : M Rental :=
  t ← Date_now; mret (rental_return_at policy t r).

(** [rental.save()] of a document that was read from the collection: the
    stored document with the same [_id] takes the state of [r]. *)
Definition save_doc (r : Rental) (l : list Rental) : list Rental :=
  (fun d => if bool_decide (rental_id d = rental_id r) then r else d) <$> l.

Definition rental_save (r : Rental) : M unit :=
  store_call (Save r) (fun db => (tt, mkDb (save_doc r (rentals db)) (movies db))).

(* ===================================================================== *)
(** ** The Movie model *)
(* ===================================================================== *)

(** [{ $inc: { numberInStock: 1 } }] *)
Definition inc_numberInStock (m : Movie) : Movie :=
  mkMovie (title m) (genre m) (numberInStock m + 1) (dailyRentalRate m).

(** [Movie.update({ _id: id }, { $inc: { numberInStock: 1 } })]: the
    operator is applied by the store to the document with that [_id], if
    there is one; the validators of the schema run on [save] only. *)
Definition Movie_update_inc (id : ObjectId) : M unit :=
  store_call (UpdateOne id)
    (fun db => (tt, mkDb (rentals db) (alter inc_numberInStock id (movies db)))).

(* ===================================================================== *)
(** ** [routes/returns.js] and the async wrapper *)
(* ===================================================================== *)

(** The handler of [POST /], after [auth] and [validate(validateReturn)]
    let the request through. *)
Definition post_returns (policy : DayRounding) (req : ReturnRequest) : M unit :=
  found ← Rental_lookup (customerId req) (movieId req);
  match found with
  | None => (* if (!rental) *)
      res_status 404;; res_send (BText "Rental not found")
  | Some rental =>
      match dateReturned rental with
      | Some _ => (* if (rental.dateReturned): a Date object is truthy *)
          res_status 400;; res_send (BText "Return already processed")
      | None =>
          rental ← rental_return policy rental;
          rental_save rental;;
          Movie_update_inc (movie_id (movie rental));;
          res_send (BRental rental)
      end
  end.

(** [next(ex)]: the exception goes to the error-handling middleware. *)
Definition next (ex : Exn) (w : World) : World :=
  mkWorld (w_db w) (w_now w) (w_faults w) (w_trace w) (w_res w) (Some ex).

(** The async wrapper:
    [try { await handler(req, res) } catch (ex) { next(ex) }] *)
Definition asyncMiddleware (handler : ReturnRequest -> M unit)
    (req : ReturnRequest) (w : World) : World :=
  match handler req w with
  | Ok _ w' => w'
  | Throw ex w' => next ex w'
  end.

(** One request served on the store [db] at time [t] under the fault
    plan [fs]. *)
Definition serve (policy : DayRounding) (req : ReturnRequest)
    (db : Db) (t : Z) (fs : list (option Exn)) : World :=
  asyncMiddleware (post_returns policy) req (fresh_world db t fs).

(** Requests served one after the other, each at its own time and under
    its own fault plan, on the store the previous one left. *)
Fixpoint serve_all (policy : DayRounding)
    (reqs : list (ReturnRequest * Z * list (option Exn))) (db : Db) : Db :=
  match reqs with
  | [] => db
  | (req, t, fs) :: rest => serve_all policy rest (w_db (serve policy req db t fs))
  end.

(* ===================================================================== *)
(** ** Predicates on stores, fault plans and traces *)
(* ===================================================================== *)

(** No call of the plan is rejected. *)
Definition no_fault (fs : list (option Exn)) : Prop :=
  Forall (fun f => f = None) fs.

(** The store keeps [_id] unique within the Rental collection. *)
Definition ids_unique (db : Db) : Prop :=
  NoDup (rental_id <$> rentals db).



(** The event at position [i] of a trace issues an inventory update. *)
Definition issues_update (tr : list Event) (i : nat) : Prop :=
  exists id, tr !! i = Some (Issued (UpdateOne id)).

(** The event at position [j] of a trace is a rental write that was
    fulfilled. *)
Definition save_fulfilled (tr : list Event) (j : nat) : Prop :=
  exists r, tr !! j = Some (Settled (Save r) None).

(** Every inventory update of the trace is issued after a rental write
    settled as fulfilled. *)
Definition save_before_update (tr : list Event) : Prop :=
  forall i, issues_update tr i ->
    exists j, (j < i)%nat /\ save_fulfilled tr j.

(** Calls do not overlap: every call that is issued settles in the very
    next event, before another one is issued. *)
Fixpoint sequential (tr : list Event) : Prop :=
  match tr with
  | [] => True
  | Issued c :: Settled c' _ :: rest => c = c' /\ sequential rest
  | _ => False
  end.

(* ===================================================================== *)
(** ** The outcomes of a request *)
(* ===================================================================== *)

(** The exception, if any, that rejects the [k]-th coming store call. *)
Definition fault_at (fs : list (option Exn)) (k : nat) : option Exn :=
  match fs !! k with
  | Some (Some ex) => Some ex
  | _ => None
  end.

(** The six ways a request can end, by the point the handler leaves at:
    the final world in terms of the store [db], the time [t] and the fault
    plan [fs] the request was served with. *)
Inductive Served (policy : DayRounding) (req : ReturnRequest)
    (db : Db) (t : Z) (fs : list (option Exn)) : World -> Prop :=
  | served_lookup_rejected ex :
      fault_at fs 0 = Some ex ->
      Served policy req db t fs
        (mkWorld db t (tail fs)
           [Issued (FindOne (customerId req) (movieId req));
            Settled (FindOne (customerId req) (movieId req)) (Some ex)]
           fresh_res (Some ex))
  | served_not_found :
      fault_at fs 0 = None ->
      lookup_in (customerId req) (movieId req) (rentals db) = None ->
      Served policy req db t fs
        (mkWorld db t (tail fs)
           [Issued (FindOne (customerId req) (movieId req));
            Settled (FindOne (customerId req) (movieId req)) None]
           (mkRes 404 (Some (BText "Rental not found"))) None)
  | served_already_processed r d :
      fault_at fs 0 = None ->
      lookup_in (customerId req) (movieId req) (rentals db) = Some r ->
      dateReturned r = Some d ->
      Served policy req db t fs
        (mkWorld db t (tail fs)
           [Issued (FindOne (customerId req) (movieId req));
            Settled (FindOne (customerId req) (movieId req)) None]
           (mkRes 400 (Some (BText "Return already processed"))) None)
  | served_save_rejected r ex :
      fault_at fs 0 = None ->
      lookup_in (customerId req) (movieId req) (rentals db) = Some r ->
      dateReturned r = None ->
      fault_at fs 1 = Some ex ->
      Served policy req db t fs
        (mkWorld db t (tail (tail fs))
           [Issued (FindOne (customerId req) (movieId req));
            Settled (FindOne (customerId req) (movieId req)) None;
            Issued (Save (rental_return_at policy t r));
            Settled (Save (rental_return_at policy t r)) (Some ex)]
           fresh_res (Some ex))
  | served_update_rejected r ex :
      fault_at fs 0 = None ->
      lookup_in (customerId req) (movieId req) (rentals db) = Some r ->
      dateReturned r = None ->
      fault_at fs 1 = None ->
      fault_at fs 2 = Some ex ->
      Served policy req db t fs
        (mkWorld
           (mkDb (save_doc (rental_return_at policy t r) (rentals db)) (movies db))
           t (tail (tail (tail fs)))
           [Issued (FindOne (customerId req) (movieId req));
            Settled (FindOne (customerId req) (movieId req)) None;
            Issued (Save (rental_return_at policy t r));
            Settled (Save (rental_return_at policy t r)) None;
            Issued (UpdateOne (movie_id (movie r)));
            Settled (UpdateOne (movie_id (movie r))) (Some ex)]
           fresh_res (Some ex))
  | served_returned r :
      fault_at fs 0 = None ->
      lookup_in (customerId req) (movieId req) (rentals db) = Some r ->
      dateReturned r = None ->
      fault_at fs 1 = None ->
      fault_at fs 2 = None ->
      Served policy req db t fs
        (mkWorld
           (mkDb (save_doc (rental_return_at policy t r) (rentals db))
              (alter inc_numberInStock (movie_id (movie r)) (movies db)))
           t (tail (tail (tail fs)))
           [Issued (FindOne (customerId req) (movieId req));
            Settled (FindOne (customerId req) (movieId req)) None;
            Issued (Save (rental_return_at policy t r));
            Settled (Save (rental_return_at policy t r)) None;
            Issued (UpdateOne (movie_id (movie r)));
            Settled (UpdateOne (movie_id (movie r))) None]
           (mkRes 200 (Some (BRental (rental_return_at policy t r)))) None).

(** Closes the goal that a world is what the handler computes, once the
    fault plan is split into cases, from the facts [L] on the lookup and [D]
    on [dateReturned]. *)
Ltac by_cases L D :=
  unfold fault_at in *; simpl in *; try discriminate;
  unfold serve, asyncMiddleware, post_returns, Rental_lookup, rental_return,
    rental_save, Movie_update_inc, Date_now, res_status, res_send, store_call,
    fresh_world, next;
  unfold mbind, M_bind, mret, M_ret; simpl;
  rewrite ?L; simpl; rewrite ?D; simpl; congruence.

(* ===================================================================== *)
(** ** The handler over any Rental model *)
(* ===================================================================== *)

(** The handler of [routes/returns.js] once more, with the two members of
    the Rental model it calls taken as parameters: [lookup], the query that
    [Rental.lookup] runs on the Rental collection, and [ret], the method
    [return] as a function of the clock reading and of the document.  What
    is proved of [post_returns_with] holds whatever [models/rental.js]
    defines them to be. *)
Definition Rental_lookup_with
    (lookup : ObjectId -> ObjectId -> list Rental -> option Rental)
    (c m : ObjectId) : M (option Rental) :=
  store_call (FindOne c m) (fun db => (lookup c m (rentals db), db)).

Definition rental_return_with (ret : Z -> Rental -> Rental) (r : Rental) : M Rental :=
  t ← Date_now; mret (ret t r).

Definition post_returns_with
    (lookup : ObjectId -> ObjectId -> list Rental -> option Rental)
    (ret : Z -> Rental -> Rental) (req : ReturnRequest) : M unit :=
  found ← Rental_lookup_with lookup (customerId req) (movieId req);
  match found with
  | None => (* if (!rental) *)
      res_status 404;; res_send (BText "Rental not found")
  | Some rental =>
      match dateReturned rental with
      | Some _ => (* if (rental.dateReturned) *)
          res_status 400;; res_send (BText "Return already processed")
      | None =>
          rental ← rental_return_with ret rental;
          rental_save rental;;
          Movie_update_inc (movie_id (movie rental));;
          res_send (BRental rental)
      end
  end.

Definition serve_with
    (lookup : ObjectId -> ObjectId -> list Rental -> option Rental)
    (ret : Z -> Rental -> Rental) (req : ReturnRequest)
    (db : Db) (t : Z) (fs : list (option Exn)) : World :=
  asyncMiddleware (post_returns_with lookup ret) req (fresh_world db t fs).

(** The final worlds of requests served one after the other, each on the
    store the previous one left. *)
Fixpoint serve_worlds_with
    (lookup : ObjectId -> ObjectId -> list Rental -> option Rental)
    (ret : Z -> Rental -> Rental)
    (reqs : list (ReturnRequest * Z * list (option Exn))) (db : Db) : list World :=
  match reqs with
  | [] => []
  | (req, t, fs) :: rest =>
      let w := serve_with lookup ret req db t fs in
      w :: serve_worlds_with lookup ret rest (w_db w)
  end.

(** The store after the last of them. *)
Definition serve_all_with
    (lookup : ObjectId -> ObjectId -> list Rental -> option Rental)
    (ret : Z -> Rental -> Rental)
    (reqs : list (ReturnRequest * Z * list (option Exn))) (db : Db) : Db :=
  match last (serve_worlds_with lookup ret reqs db) with
  | Some w => w_db w
  | None => db
  end.

(** The rental a request was answered with, when the response is the
    rental. *)
Definition returned_rental (w : World) : option Rental :=
  match sent (w_res w) with
  | Some (BRental r) => Some r
  | _ => None
  end.

(** How many of the worlds answered with a rental of the movie [id]. *)
Definition returns_of_movie (id : ObjectId) (ws : list World) : nat :=
  length (filter (fun w => movie_id ∘ movie <$> returned_rental w = Some id) ws).

(** How many of the worlds answered with the rental [id]. *)
Definition returns_of_rental (id : ObjectId) (ws : list World) : nat :=
  length (filter (fun w => rental_id <$> returned_rental w = Some id) ws).

(** The rental a request wrote: the document of its save that the store
    fulfilled, if there is one. *)
Fixpoint saved_in (tr : list Event) : option Rental :=
  match tr with
  | [] => None
  | Settled (Save r) None :: _ => Some r
  | _ :: rest => saved_in rest
  end.

Definition saved_rental (w : World) : option Rental := saved_in (w_trace w).

(** How many of the worlds wrote the rental [id]. *)
Definition saves_of_rental (id : ObjectId) (ws : list World) : nat :=
  length (filter (fun w => rental_id <$> saved_rental w = Some id) ws).

(** The final worlds of the requests of [serve_all], in the order they
    were served. *)
Fixpoint serve_worlds (policy : DayRounding)
    (reqs : list (ReturnRequest * Z * list (option Exn))) (db : Db) : list World :=
  match reqs with
  | [] => []
  | (req, t, fs) :: rest =>
      serve policy req db t fs
      :: serve_worlds policy rest (w_db (serve policy req db t fs))
  end.

(** Every stored rental with the identifier [i] has [dateReturned] set. *)
Definition rental_closed (i : ObjectId) (db : Db) : Prop :=
  forall d, d ∈ rentals db -> rental_id d = i -> is_Some (dateReturned d).

(** The movie with [n] more in stock. *)
Definition add_stock (n : Z) (m : Movie) : Movie :=
  mkMovie (title m) (genre m) (numberInStock m + n) (dailyRentalRate m).

(* ===================================================================== *)
(** ** Request bodies and the Joi schemas *)
(* ===================================================================== *)

(** A JavaScript string is the list of its UTF-16 code units, so that
    [length] is its [.length].  [js] reads a literal. *)
Abbreviation JsString := (list N).

Definition js (s : string) : JsString := Ascii.N_of_ascii <$> String.list_ascii_of_string s.

(** The bodies and the candidate documents below have their fields typed:
    a field is absent ([None]) or holds a value of the JSON type the
    schema names.  Values of another type, [null] and keys the schema does
    not know are outside the model. *)

(** The rule a value breaks. *)
Inductive Broken :=
  | IsRequired | IsEmpty | TooShort | TooLong
  | TooSmall | TooLarge | Unsafe | NotObjectId.

(** [.required()] or not: what Joi answers for an absent key, and the
    rules of the type for a present one. *)
Definition joi_presence {A : Type} (required : bool)
    (rule : A -> option Broken) (v : option A) : option Broken :=
  match v with
  | None => if required then Some IsRequired else None
  | Some a => rule a
  end.

(** [Joi.string().min(lo).max(hi)]: the empty string is not allowed, then
    the rules in the order they were added. *)
Definition joi_string (lo hi : nat) (s : JsString) : option Broken :=
  match s with
  | [] => Some IsEmpty
  | _ =>
      if (length s <? lo)%nat then Some TooShort
      else if (hi <? length s)%nat then Some TooLong
      else None
  end.

Definition MAX_SAFE_INTEGER : Z := 9007199254740991.

(** [Joi.number().min(lo)] and [Joi.number().min(lo).max(hi)].  Later
    versions of Joi first reject a number outside the safe integers;
    [safe_only] tells whether the installed one does. *)
Definition joi_number (safe_only : bool) (lo : Q) (hi : option Q) (n : Q)
    : option Broken :=
  if safe_only
     && negb (Qle_bool (inject_Z (- MAX_SAFE_INTEGER)) n
              && Qle_bool n (inject_Z MAX_SAFE_INTEGER))
  then Some Unsafe
  else if negb (Qle_bool lo n) then Some TooSmall
  else match hi with
       | Some h => if negb (Qle_bool n h) then Some TooLarge else None
       | None => None
       end.

Definition is_hex_digit (c : N) : bool :=
  ((48 <=? c) && (c <=? 57) || (65 <=? c) && (c <=? 70)
   || (97 <=? c) && (c <=? 102))%N.

(** [Joi.objectId()], that is [Joi.string().regex(/^[0-9a-fA-F]{24}$/)]:
    the empty string is not allowed, then the string has to match. *)
Definition joi_objectId (s : JsString) : option Broken :=
  match s with
  | [] => Some IsEmpty
  | _ =>
      if forallb is_hex_digit s && (length s =? 24)%nat then None
      else Some NotObjectId
  end.

(** [Joi.validate(value, schema)] stops at the first error, the keys taken
    in the order of the schema. *)
Fixpoint first_error (checks : list (string * option Broken))
    : option (string * Broken) :=
  match checks with
  | [] => None
  | (k, Some e) :: _ => Some (k, e)
  | (_, None) :: rest => first_error rest
  end.

(** [routes/returns.js]: [validateReturn]. *)
Record ReturnBody := mkReturnBody {
  body_customerId : option JsString;
  body_movieId : option JsString
}.

Definition validateReturn (b : ReturnBody) : option (string * Broken) :=
  first_error
    [("customerId", joi_presence true joi_objectId (body_customerId b));
     ("movieId", joi_presence true joi_objectId (body_movieId b))].

(** The ObjectId a string of 24 hexadecimal digits stands for. *)
Definition hex_value (c : N) : option N :=
  if ((48 <=? c) && (c <=? 57))%N then Some (c - 48)%N
  else if ((65 <=? c) && (c <=? 70))%N then Some (c - 55)%N
  else if ((97 <=? c) && (c <=? 102))%N then Some (c - 87)%N
  else None.

Fixpoint hex_number (acc : N) (s : JsString) : option N :=
  match s with
  | [] => Some acc
  | c :: s' =>
      match hex_value c with
      | Some d => hex_number (16 * acc + d)%N s'
      | None => None
      end
  end.

Definition objectId_of (s : JsString) : option N :=
  if (length s =? 24)%nat then hex_number 0 s else None.

(** The request the handler works on, for a body whose two identifiers
    stand for ObjectIds. *)
Definition request_of_body (b : ReturnBody) : option ReturnRequest :=
  match body_customerId b ≫= objectId_of, body_movieId b ≫= objectId_of with
  | Some c, Some m => Some (mkReturnRequest c m)
  | _, _ => None
  end.

(** [models/movie.js]: [validateMovie]. *)
Record MovieBody := mkMovieBody {
  body_title : option JsString;
  body_genreId : option JsString;
  body_numberInStock : option Q;
  body_dailyRentalRate : option Q
}.

Definition validateMovie (safe_only : bool) (b : MovieBody)
    : option (string * Broken) :=
  first_error
    [("title", joi_presence true (joi_string 3 50) (body_title b));
     ("genreId", joi_presence true joi_objectId (body_genreId b));
     ("numberInStock",
      joi_presence true (joi_number safe_only 0 None) (body_numberInStock b));
     ("dailyRentalRate",
      joi_presence true (joi_number safe_only 0 (Some 10%Q))
        (body_dailyRentalRate b))].

(** [models/customer.js]: the four fields of a customer, as the body of a
    request and as what a document is made from. *)
Record CustomerFields := mkCustomerFields {
  name : option JsString;
  phone : option JsString;
  isGold : option bool;
  address : option JsString
}.

(** [models/customer.js]: [validateCustomer]. *)
Definition validateCustomer (c : CustomerFields) : option (string * Broken) :=
  first_error
    [("name", joi_presence true (joi_string 3 50) (name c));
     ("phone", joi_presence true (joi_string 3 50) (phone c));
     ("isGold", joi_presence false (fun _ : bool => None) (isGold c));
     ("address", joi_presence false (joi_string 3 255) (address c))].

(* ===================================================================== *)
(** ** The validators of the mongoose schemas *)
(* ===================================================================== *)

(** [String.prototype.trim], over the code units [ws] counts as white
    space. *)
Fixpoint trim_start (ws : N -> bool) (s : JsString) : JsString :=
  match s with
  | [] => []
  | c :: s' => if ws c then trim_start ws s' else s
  end.

Definition js_trim (ws : N -> bool) (s : JsString) : JsString :=
  reverse (trim_start ws (reverse (trim_start ws s))).

(** The white space and the line terminators of ECMAScript. *)
Definition ecma_whitespace (c : N) : bool :=
  ((9 <=? c) && (c <=? 13) || (c =? 32) || (c =? 160) || (c =? 5760)
   || (8192 <=? c) && (c <=? 8202) || (c =? 8232) || (c =? 8233)
   || (c =? 8239) || (c =? 8287) || (c =? 12288) || (c =? 65279))%N.

(** The string neither begins nor ends with white space. *)
Definition trimmed (ws : N -> bool) (s : JsString) : Prop :=
  (forall c, head s = Some c -> ws c = false) /\
  (forall c, last s = Some c -> ws c = false).

(** A [String] path: the [trim] setter when the option is set, then the
    validators, [required] first (a string is required to be present and
    not empty), then [minlength], then [maxlength]; the validators but
    [required] are skipped for an absent value, and the first that fails
    is the error of the path. *)
Definition schema_string (ws : N -> bool) (trim required : bool)
    (lo hi : nat) (v : option JsString) : option Broken :=
  match (if trim then js_trim ws <$> v else v) with
  | None => if required then Some IsRequired else None
  | Some s =>
      if required && bool_decide (s = []) then Some IsRequired
      else if (length s <? lo)%nat then Some TooShort
      else if (hi <? length s)%nat then Some TooLong
      else None
  end.

(** A [Number] path: the default for an absent value, then [required],
    [min], [max]. *)
Definition schema_number (required : bool) (default : option Q) (lo hi : Q)
    (v : option Q) : option Broken :=
  match (match v with Some n => Some n | None => default end) with
  | None => if required then Some IsRequired else None
  | Some n =>
      if negb (Qle_bool lo n) then Some TooSmall
      else if negb (Qle_bool n hi) then Some TooLarge
      else None
  end.

(** [models/movie.js]: the paths of the Movie schema but [genre], whose
    validators are those of the genre schema. *)
Definition Movie_title_error (ws : N -> bool) (v : option JsString) : option Broken :=
  schema_string ws true true 3 50 v.

Definition Movie_numberInStock_error (v : option Q) : option Broken :=
  schema_number true (Some 0%Q) 0 255 v.

Definition Movie_dailyRentalRate_error (v : option Q) : option Broken :=
  schema_number true None 0 255 v.

(** The errors of a validation, one for each path that has one. *)
Definition path_errors (checks : list (string * option Broken))
    : list (string * Broken) :=
  omap (fun '(k, e) => pair k <$> e) checks.

(** [models/customer.js]: the Customer schema.  [isGold] has a default and
    no validator. *)
Definition Customer_validate (ws : N -> bool) (c : CustomerFields)
    : list (string * Broken) :=
  path_errors
    [("name", schema_string ws true true 3 50 (name c));
     ("phone", schema_string ws false true 3 50 (phone c));
     ("address", schema_string ws true false 3 255 (address c))].

(** The document [new Customer(c)] holds: the setters and the defaults
    applied. *)
Definition Customer_new (ws : N -> bool) (c : CustomerFields) : CustomerFields :=
  mkCustomerFields (js_trim ws <$> name c) (phone c)
    (Some (default false (isGold c))) (js_trim ws <$> address c).

(* ===================================================================== *)
(** ** Sample data *)
(* ===================================================================== *)

Definition sample_rental (out : Z) : Rental :=
  mkRental 10 (mkCustomerSnapshot 7 "12345" "12345")
    (mkMovieSnapshot 1 "12345" 2) out None None.

Definition sample_movie (stock : Z) : Movie :=
  mkMovie "12345" "12345" stock 2.

Definition sample_db (out stock : Z) : Db :=
  mkDb [sample_rental out] {[ 1%N := sample_movie stock ]}.

Definition sample_request : ReturnRequest := mkReturnRequest 7 1.

(** A customer who rented the same movie twice: the first rental was
    returned, the second is still out. *)
Definition earlier_rental : Rental :=
  mkRental 10 (mkCustomerSnapshot 7 "12345" "12345")
    (mkMovieSnapshot 1 "12345" 2) 0 (Some 50) (Some 0%Q).

Definition later_rental : Rental :=
  mkRental 11 (mkCustomerSnapshot 7 "12345" "12345")
    (mkMovieSnapshot 1 "12345" 2) 100 None None.

Definition rerented_db : Db :=
  mkDb [earlier_rental; later_rental] {[ 1%N := sample_movie 9 ]}.

(** A store whose only rental was returned, and one whose rental refers to
    a movie that is no longer in the Movie collection. *)
Definition returned_db : Db :=
  mkDb [earlier_rental] {[ 1%N := sample_movie 9 ]}.

Definition orphan_db : Db :=
  mkDb [sample_rental 0] ∅.

(** A movie body with more in stock than the schema allows, and a
    customer whose name is padded with spaces. *)
Definition hex24 : JsString := js "5f1e7b9a2c4d6e8f0a1b3c5d".

Definition overstocked_body : MovieBody :=
  mkMovieBody (Some (js "Alien")) (Some hex24) (Some 256%Q) (Some 2%Q).

Definition padded_customer : CustomerFields :=
  mkCustomerFields (Some (js "  a  ")) (Some (js "12345")) None None.

Definition plain_customer : CustomerFields :=
  mkCustomerFields (Some (js "Ann")) (Some (js "12345")) None (Some (js "1 Main St")).

Example rerented_lookup :
  lookup_in 7 1 (rentals rerented_db) = Some later_rental.
Proof. reflexivity. Qed.

Example sample_return_status :
  statusCode (w_res (serve RoundDown sample_request (sample_db 0 9) (7 * msPerDay) [])) = 200.
Proof. reflexivity. Qed.

Example sample_return_stock :
  numberInStock <$> movies (w_db (serve RoundDown sample_request (sample_db 0 9) (7 * msPerDay) [])) !! 1%N
  = Some 10.
Proof. reflexivity. Qed.

(* ===================================================================== *)
(** ** Lookup: the most recent matching checkout *)
(* ===================================================================== *)

Lemma most_recent_elem (b : Rental) (l : list Rental) :
  most_recent b l = b \/ most_recent b l ∈ l.
Proof.
  revert b. induction l as [|r l IH]; intros b; simpl.
  - by left.
  - destruct (IH (if dateOut b <? dateOut r then r else b)) as [E|E].
    + rewrite E. destruct (dateOut b <? dateOut r).
      * right. apply list_elem_of_here.
      * by left.
    + right. by apply list_elem_of_further.
Qed.

Lemma most_recent_ge_best (b : Rental) (l : list Rental) :
  dateOut b <= dateOut (most_recent b l).
Proof.
  revert b. induction l as [|r l IH]; intros b; simpl; [lia|].
  specialize (IH (if dateOut b <? dateOut r then r else b)).
  destruct (Z.ltb_spec (dateOut b) (dateOut r)); lia.
Qed.

Lemma most_recent_ge_all (b : Rental) (l : list Rental) (r : Rental) :
  r ∈ l -> dateOut r <= dateOut (most_recent b l).
Proof.
  revert b. induction l as [|r0 l IH]; intros b Hin; simpl.
  - by apply elem_of_nil in Hin.
  - apply elem_of_cons in Hin as [->|Hin].
    + pose proof (most_recent_ge_best (if dateOut b <? dateOut r0 then r0 else b) l).
      destruct (Z.ltb_spec (dateOut b) (dateOut r0)); lia.
    + by apply IH.
Qed.

Lemma lookup_in_Some (c m : ObjectId) (l : list Rental) (r : Rental) :
  lookup_in c m l = Some r ->
  r ∈ l /\ matches c m r = true /\
  forall r', r' ∈ l -> matches c m r' = true -> dateOut r' <= dateOut r.
Proof.
  unfold lookup_in. intros H.
  destruct (filter (fun r => matches c m r = true) l) as [|b rs] eqn:E; [done|].
  injection H as <-.
  assert (Hsub : forall x, x ∈ b :: rs -> x ∈ l /\ matches c m x = true).
  { intros x Hx. rewrite <- E in Hx. apply list_elem_of_filter in Hx. tauto. }
  assert (Hmr : most_recent b rs ∈ b :: rs).
  { destruct (most_recent_elem b rs) as [->|?].
    - apply list_elem_of_here.
    - by apply list_elem_of_further. }
  destruct (Hsub _ Hmr) as [? ?]. repeat split; try done.
  intros r' Hr' Hm.
  assert (Hf : r' ∈ b :: rs).
  { rewrite <- E. apply list_elem_of_filter. done. }
  apply elem_of_cons in Hf as [->|Hf].
  - apply most_recent_ge_best.
  - by apply most_recent_ge_all.
Qed.

Lemma lookup_in_None (c m : ObjectId) (l : list Rental) :
  lookup_in c m l = None <-> forall r, r ∈ l -> matches c m r = false.
Proof.
  unfold lookup_in. split.
  - intros H r Hr.
    destruct (filter (fun r => matches c m r = true) l) as [|b rs] eqn:E; [|done].
    destruct (matches c m r) eqn:Hm; [|done].
    assert (r ∈ filter (fun r => matches c m r = true) l)
      by (apply list_elem_of_filter; done).
    rewrite E in H0. by apply elem_of_nil in H0.
  - intros H.
    destruct (filter (fun r => matches c m r = true) l) as [|b rs] eqn:E; [done|].
    assert (Hb : b ∈ filter (fun r => matches c m r = true) l)
      by (rewrite E; apply list_elem_of_here).
    apply list_elem_of_filter in Hb as [Hb1 Hb2].
    rewrite (H _ Hb2) in Hb1. discriminate.
Qed.

Lemma lookup_in_is_Some (c m : ObjectId) (l : list Rental) (r0 : Rental) :
  r0 ∈ l -> matches c m r0 = true -> is_Some (lookup_in c m l).
Proof.
  intros Hin Hm. destruct (lookup_in c m l) eqn:E; [by eexists|].
  rewrite lookup_in_None in E. rewrite (E _ Hin) in Hm. discriminate.
Qed.

(* ===================================================================== *)
(** ** Saving a document *)
(* ===================================================================== *)

Lemma save_doc_ids (r : Rental) (l : list Rental) :
  rental_id <$> save_doc r l = rental_id <$> l.
Proof.
  unfold save_doc. rewrite <- list_fmap_compose.
  apply list_fmap_ext. intros i d _. simpl.
  case_bool_decide; congruence.
Qed.

Lemma elem_of_save_doc (r d' : Rental) (l : list Rental) :
  d' ∈ save_doc r l <->
  exists d, d ∈ l /\ d' = if bool_decide (rental_id d = rental_id r) then r else d.
Proof.
  unfold save_doc. rewrite list_elem_of_fmap. split.
  - intros (d & -> & Hd). by exists d.
  - intros (d & Hd & ->). by exists d.
Qed.

(** Within a collection with unique identifiers, a document is determined
    by its identifier. *)
Lemma ids_unique_inj (l : list Rental) (a b : Rental) :
  NoDup (rental_id <$> l) -> a ∈ l -> b ∈ l -> rental_id a = rental_id b -> a = b.
Proof.
  induction l as [|x l IH]; intros Hnd Ha Hb Hid.
  - by apply elem_of_nil in Ha.
  - rewrite fmap_cons in Hnd. apply NoDup_cons in Hnd as [Hx Hnd].
    apply elem_of_cons in Ha as [->|Ha]; apply elem_of_cons in Hb as [->|Hb].
    + done.
    + exfalso. apply Hx. rewrite Hid. apply list_elem_of_fmap. by exists b.
    + exfalso. apply Hx. rewrite <- Hid. apply list_elem_of_fmap. by exists a.
    + by apply IH.
Qed.

(** The saved document is in the collection afterwards. *)
Lemma save_doc_stored (r r' : Rental) (l : list Rental) :
  r ∈ l -> rental_id r' = rental_id r -> r' ∈ save_doc r' l.
Proof.
  intros Hin Hid. apply elem_of_save_doc. exists r. split; [done|].
  by rewrite bool_decide_eq_true_2.
Qed.



(** A save that keeps the customer, the movie and the checkout date of the
    document does not change which document a lookup selects. *)
Lemma most_recent_fmap (f : Rental -> Rental) (b : Rental) (l : list Rental) :
  dateOut (f b) = dateOut b ->
  Forall (fun d => dateOut (f d) = dateOut d) l ->
  most_recent (f b) (f <$> l) = f (most_recent b l).
Proof.
  revert b. induction l as [|r l IH]; intros b Hb Hl; simpl; [done|].
  apply Forall_cons in Hl as [Hr Hl].
  rewrite Hb, Hr.
  destruct (dateOut b <? dateOut r); by apply IH.
Qed.

Lemma filter_matches_fmap (c m : ObjectId) (f : Rental -> Rental) (l : list Rental) :
  Forall (fun d => matches c m (f d) = matches c m d) l ->
  filter (fun r => matches c m r = true) (f <$> l)
  = f <$> filter (fun r => matches c m r = true) l.
Proof.
  induction l as [|r l IH]; intros Hl; [done|].
  apply Forall_cons in Hl as [Hr Hl].
  rewrite fmap_cons, !filter_cons, Hr.
  destruct (decide (matches c m r = true)); simpl; by rewrite (IH Hl).
Qed.

Lemma lookup_in_fmap (c m : ObjectId) (f : Rental -> Rental) (l : list Rental) :
  Forall (fun d => matches c m (f d) = matches c m d) l ->
  Forall (fun d => dateOut (f d) = dateOut d) l ->
  lookup_in c m (f <$> l) = f <$> lookup_in c m l.
Proof.
  intros Hm Hd. unfold lookup_in. rewrite filter_matches_fmap by done.
  assert (Hsub : Forall (fun d => dateOut (f d) = dateOut d)
                   (filter (fun r => matches c m r = true) l)).
  { apply Forall_forall. intros x Hx. apply list_elem_of_filter in Hx as [_ Hx].
    by apply (proj1 (Forall_forall _ _) Hd). }
  destruct (filter (fun r => matches c m r = true) l) as [|b rs]; [done|].
  apply Forall_cons in Hsub as [Hb Hrs].
  simpl. f_equal. by apply most_recent_fmap.
Qed.

Lemma lookup_in_save_doc (c m : ObjectId) (r r' : Rental) (l : list Rental) :
  NoDup (rental_id <$> l) ->
  lookup_in c m l = Some r ->
  rental_id r' = rental_id r -> customer r' = customer r ->
  movie r' = movie r -> dateOut r' = dateOut r ->
  lookup_in c m (save_doc r' l) = Some r'.
Proof.
  intros Hnd Hl Hid Hc Hm Hd.
  destruct (lookup_in_Some _ _ _ _ Hl) as (Hin & _ & _).
  assert (Hsame : forall d, d ∈ l -> rental_id d = rental_id r' -> d = r).
  { intros d Hd' E. apply (ids_unique_inj l); congruence. }
  unfold save_doc. rewrite lookup_in_fmap.
  - rewrite Hl. simpl. by rewrite bool_decide_eq_true_2.
  - apply Forall_forall. intros d Hd'. case_bool_decide as E; [|done].
    rewrite (Hsame d Hd' E). unfold matches. by rewrite Hc, Hm.
  - apply Forall_forall. intros d Hd'. case_bool_decide as E; [|done].
    by rewrite (Hsame d Hd' E).
Qed.

(* ===================================================================== *)
(** ** The handler ends in one of the six outcomes *)
(* ===================================================================== *)

Lemma no_fault_fault_at (fs : list (option Exn)) (k : nat) :
  no_fault fs -> fault_at fs k = None.
Proof.
  intros Hf. unfold fault_at. destruct (fs !! k) as [[ex|]|] eqn:E; try done.
  apply list_elem_of_lookup_2 in E.
  by apply (proj1 (Forall_forall _ _) Hf) in E.
Qed.

Lemma serve_Served (policy : DayRounding) (req : ReturnRequest)
    (db : Db) (t : Z) (fs : list (option Exn)) :
  Served policy req db t fs (serve policy req db t fs).
Proof.
  destruct (fault_at fs 0) as [ex0|] eqn:F0.
  { replace (serve policy req db t fs) with
      (mkWorld db t (tail fs)
         [Issued (FindOne (customerId req) (movieId req));
          Settled (FindOne (customerId req) (movieId req)) (Some ex0)]
         fresh_res (Some ex0)); [by constructor|].
    destruct fs as [|[?|] ?]; by_cases L L. }
  destruct (lookup_in (customerId req) (movieId req) (rentals db)) as [r|] eqn:L.
  2:{ replace (serve policy req db t fs) with
        (mkWorld db t (tail fs)
           [Issued (FindOne (customerId req) (movieId req));
            Settled (FindOne (customerId req) (movieId req)) None]
           (mkRes 404 (Some (BText "Rental not found"))) None);
        [by constructor|].
      destruct fs as [|[?|] ?]; by_cases L L. }
  destruct (dateReturned r) as [d|] eqn:D.
  { replace (serve policy req db t fs) with
      (mkWorld db t (tail fs)
         [Issued (FindOne (customerId req) (movieId req));
          Settled (FindOne (customerId req) (movieId req)) None]
         (mkRes 400 (Some (BText "Return already processed"))) None);
      [by econstructor|].
    destruct fs as [|[?|] ?]; by_cases L D. }
  destruct (fault_at fs 1) as [ex1|] eqn:F1.
  { replace (serve policy req db t fs) with
      (mkWorld db t (tail (tail fs))
         [Issued (FindOne (customerId req) (movieId req));
          Settled (FindOne (customerId req) (movieId req)) None;
          Issued (Save (rental_return_at policy t r));
          Settled (Save (rental_return_at policy t r)) (Some ex1)]
         fresh_res (Some ex1)); [by constructor|].
    destruct fs as [|[?|] [|[?|] ?]]; by_cases L D. }
  destruct (fault_at fs 2) as [ex2|] eqn:F2.
  { replace (serve policy req db t fs) with
      (mkWorld
         (mkDb (save_doc (rental_return_at policy t r) (rentals db)) (movies db))
         t (tail (tail (tail fs)))
         [Issued (FindOne (customerId req) (movieId req));
          Settled (FindOne (customerId req) (movieId req)) None;
          Issued (Save (rental_return_at policy t r));
          Settled (Save (rental_return_at policy t r)) None;
          Issued (UpdateOne (movie_id (movie r)));
          Settled (UpdateOne (movie_id (movie r))) (Some ex2)]
         fresh_res (Some ex2)); [by constructor|].
    destruct fs as [|[?|] [|[?|] [|[?|] ?]]]; by_cases L D. }
  replace (serve policy req db t fs) with
    (mkWorld
       (mkDb (save_doc (rental_return_at policy t r) (rentals db))
          (alter inc_numberInStock (movie_id (movie r)) (movies db)))
       t (tail (tail (tail fs)))
       [Issued (FindOne (customerId req) (movieId req));
        Settled (FindOne (customerId req) (movieId req)) None;
        Issued (Save (rental_return_at policy t r));
        Settled (Save (rental_return_at policy t r)) None;
        Issued (UpdateOne (movie_id (movie r)));
        Settled (UpdateOne (movie_id (movie r))) None]
       (mkRes 200 (Some (BRental (rental_return_at policy t r)))) None);
    [by constructor|].
  destruct fs as [|[?|] [|[?|] [|[?|] ?]]]; by_cases L D.
Qed.

(** Three of the outcomes read as equations on [serve]. *)
Lemma serve_returned (policy : DayRounding) (req : ReturnRequest)
    (db : Db) (t : Z) (fs : list (option Exn)) (r : Rental) :
  fault_at fs 0 = None -> fault_at fs 1 = None -> fault_at fs 2 = None ->
  lookup_in (customerId req) (movieId req) (rentals db) = Some r ->
  dateReturned r = None ->
  serve policy req db t fs =
  mkWorld
    (mkDb (save_doc (rental_return_at policy t r) (rentals db))
       (alter inc_numberInStock (movie_id (movie r)) (movies db)))
    t (tail (tail (tail fs)))
    [Issued (FindOne (customerId req) (movieId req));
     Settled (FindOne (customerId req) (movieId req)) None;
     Issued (Save (rental_return_at policy t r));
     Settled (Save (rental_return_at policy t r)) None;
     Issued (UpdateOne (movie_id (movie r)));
     Settled (UpdateOne (movie_id (movie r))) None]
    (mkRes 200 (Some (BRental (rental_return_at policy t r)))) None.
Proof.
  intros F0 F1 F2 L D.
  destruct (serve_Served policy req db t fs); congruence.
Qed.

Lemma serve_already_processed (policy : DayRounding) (req : ReturnRequest)
    (db : Db) (t : Z) (fs : list (option Exn)) (r : Rental) (d : Z) :
  fault_at fs 0 = None ->
  lookup_in (customerId req) (movieId req) (rentals db) = Some r ->
  dateReturned r = Some d ->
  serve policy req db t fs =
  mkWorld db t (tail fs)
    [Issued (FindOne (customerId req) (movieId req));
     Settled (FindOne (customerId req) (movieId req)) None]
    (mkRes 400 (Some (BText "Return already processed"))) None.
Proof.
  intros F0 L D.
  destruct (serve_Served policy req db t fs); congruence.
Qed.

Lemma serve_not_found (policy : DayRounding) (req : ReturnRequest)
    (db : Db) (t : Z) (fs : list (option Exn)) :
  fault_at fs 0 = None ->
  lookup_in (customerId req) (movieId req) (rentals db) = None ->
  serve policy req db t fs =
  mkWorld db t (tail fs)
    [Issued (FindOne (customerId req) (movieId req));
     Settled (FindOne (customerId req) (movieId req)) None]
    (mkRes 404 (Some (BText "Rental not found"))) None.
Proof.
  intros F0 L.
  destruct (serve_Served policy req db t fs); congruence.
Qed.

(* ===================================================================== *)
(** ** The day count and the fee *)
(* ===================================================================== *)

Lemma msPerDay_pos : 0 < msPerDay.
Proof. reflexivity. Qed.

Lemma numberOfRentalDays_nonneg (policy : DayRounding) (out ret : Z) :
  out <= ret -> 0 <= numberOfRentalDays policy out ret.
Proof.
  intros H. pose proof msPerDay_pos. destruct policy; simpl.
  - apply Z.div_pos; lia.
  - assert ((out - ret) / msPerDay <= 0); [|lia].
    apply Z.div_le_upper_bound; lia.
Qed.

(** The count is a whole number of days next to the time elapsed: less
    than a day away from it, below when rounding down and above when
    rounding up. *)
Lemma numberOfRentalDays_whole (policy : DayRounding) (out ret : Z) :
  match policy with
  | RoundDown =>
      numberOfRentalDays policy out ret * msPerDay <= ret - out
      < (numberOfRentalDays policy out ret + 1) * msPerDay
  | RoundUp =>
      (numberOfRentalDays policy out ret - 1) * msPerDay < ret - out
      <= numberOfRentalDays policy out ret * msPerDay
  end.
Proof.
  pose proof msPerDay_pos as Hpos. destruct policy; simpl.
  - pose proof (Z.div_mod (ret - out) msPerDay ltac:(lia)).
    pose proof (Z.mod_pos_bound (ret - out) msPerDay Hpos). nia.
  - pose proof (Z.div_mod (out - ret) msPerDay ltac:(lia)).
    pose proof (Z.mod_pos_bound (out - ret) msPerDay Hpos). nia.
Qed.

Lemma numberOfRentalDays_exact (policy : DayRounding) (out n : Z) :
  numberOfRentalDays policy out (out + n * msPerDay) = n.
Proof.
  pose proof msPerDay_pos. destruct policy; simpl.
  - replace (out + n * msPerDay - out) with (n * msPerDay) by lia.
    apply Z.div_mul. lia.
  - replace (out - (out + n * msPerDay)) with (- n * msPerDay) by lia.
    rewrite Z.div_mul by lia. lia.
Qed.

Lemma numberOfRentalDays_same (policy : DayRounding) (t : Z) :
  numberOfRentalDays policy t t = 0.
Proof.
  pose proof (numberOfRentalDays_exact policy t 0) as H.
  by rewrite Z.mul_0_l, Z.add_0_r in H.
Qed.

Lemma fee_nonneg (days : Z) (rate : Q) :
  0 <= days -> (0 <= rate)%Q -> (0 <= inject_Z days * rate)%Q.
Proof.
  intros Hd Hr. apply Qmult_le_0_compat; [|done].
  unfold Qle. simpl. lia.
Qed.

Lemma inc_numberInStock_lookup (id : ObjectId) (ms : gmap N Movie) (mv : Movie) :
  ms !! id = Some mv ->
  exists mv', alter inc_numberInStock id ms !! id = Some mv'
    /\ numberInStock mv' = numberInStock mv + 1
    /\ title mv' = title mv /\ genre mv' = genre mv
    /\ dailyRentalRate mv' = dailyRentalRate mv.
Proof.
  intros H. exists (inc_numberInStock mv). split; [|done].
  by rewrite lookup_alter_eq, H.
Qed.

(* ===================================================================== *)
(** ** The successful return *)
(* ===================================================================== *)

(** C1. A return request whose customer and movie identifiers resolve to a
    rental with [dateReturned] absent, served without a store fault, at a
    time not before the checkout and for a snapshot whose daily rate the
    schema accepts (not negative): the stored rental gets a [dateReturned]
    that is set and not before [dateOut] and a [rentalFee] that is set and
    not negative, the stock of the movie the rental refers to goes up by
    exactly one while every other movie is left alone, and the response is
    200 with the updated rental. *)
Theorem return_of_open_rental (policy : DayRounding) (req : ReturnRequest)
    (db : Db) (t : Z) (fs : list (option Exn)) (r : Rental) :
  no_fault fs ->
  lookup_in (customerId req) (movieId req) (rentals db) = Some r ->
  dateReturned r = None ->
  dateOut r <= t ->
  (0 <= movie_dailyRentalRate (movie r))%Q ->
  exists (r' : Rental) (returned : Z) (fee : Q),
    dateReturned r' = Some returned /\ dateOut r' <= returned /\
    rentalFee r' = Some fee /\ (0 <= fee)%Q /\
    rental_id r' = rental_id r /\ customer r' = customer r /\
    movie r' = movie r /\ dateOut r' = dateOut r /\
    r' ∈ rentals (w_db (serve policy req db t fs)) /\
    movie_id (movie r) = movieId req /\
    (forall mv, movies db !! movieId req = Some mv ->
       exists mv', movies (w_db (serve policy req db t fs)) !! movieId req = Some mv'
         /\ numberInStock mv' = numberInStock mv + 1) /\
    (forall id, id <> movieId req ->
       movies (w_db (serve policy req db t fs)) !! id = movies db !! id) /\
    w_res (serve policy req db t fs) = mkRes 200 (Some (BRental r')) /\
    w_next (serve policy req db t fs) = None.
Proof.
  intros Hf L D Ht Hrate.
  rewrite (serve_returned policy req db t fs r) by auto using no_fault_fault_at.
  destruct (lookup_in_Some _ _ _ _ L) as (Hin & Hm & _).
  assert (Hmid : movie_id (movie r) = movieId req).
  { unfold matches in Hm. apply andb_true_iff in Hm as [_ Hm].
    by apply bool_decide_eq_true in Hm. }
  exists (rental_return_at policy t r), t,
    (inject_Z (numberOfRentalDays policy (dateOut r) t)
     * movie_dailyRentalRate (movie r))%Q.
  simpl. repeat split; try done.
  - apply fee_nonneg; [by apply numberOfRentalDays_nonneg|done].
  - by apply (save_doc_stored r).
  - intros mv Hmv. rewrite Hmid.
    destruct (inc_numberInStock_lookup _ _ _ Hmv) as (mv' & ? & ? & _).
    by exists mv'.
  - intros id Hne. rewrite Hmid. by apply lookup_alter_ne.
Qed.

Lemma return_of_open_rental_witness :
  exists (r' : Rental) (returned : Z) (fee : Q),
    dateReturned r' = Some returned /\ dateOut r' <= returned /\
    rentalFee r' = Some fee /\ (0 <= fee)%Q /\
    rental_id r' = rental_id (sample_rental 0) /\
    customer r' = customer (sample_rental 0) /\
    movie r' = movie (sample_rental 0) /\ dateOut r' = dateOut (sample_rental 0) /\
    r' ∈ rentals (w_db (serve RoundDown sample_request (sample_db 0 9) (7 * msPerDay) [])) /\
    movie_id (movie (sample_rental 0)) = movieId sample_request /\
    (forall mv, movies (sample_db 0 9) !! movieId sample_request = Some mv ->
       exists mv',
         movies (w_db (serve RoundDown sample_request (sample_db 0 9) (7 * msPerDay) []))
           !! movieId sample_request = Some mv'
         /\ numberInStock mv' = numberInStock mv + 1) /\
    (forall id, id <> movieId sample_request ->
       movies (w_db (serve RoundDown sample_request (sample_db 0 9) (7 * msPerDay) [])) !! id
       = movies (sample_db 0 9) !! id) /\
    w_res (serve RoundDown sample_request (sample_db 0 9) (7 * msPerDay) [])
    = mkRes 200 (Some (BRental r')) /\
    w_next (serve RoundDown sample_request (sample_db 0 9) (7 * msPerDay) []) = None.
Proof.
  apply (return_of_open_rental RoundDown sample_request (sample_db 0 9)
           (7 * msPerDay) [] (sample_rental 0)).
  - apply Forall_nil_2.
  - reflexivity.
  - reflexivity.
  - vm_compute. discriminate.
  - vm_compute. discriminate.
Defined.

(** C2. On a successful return the fee is the day count times the daily
    rate of the snapshot, where the day count is the whole number of days
    between [dateOut] and [dateReturned] (under either rounding it is less
    than one day away from the time elapsed); a rental at rate 2 returned
    seven days after the checkout is charged 14. *)
Theorem rentalFee_is_days_times_rate (policy : DayRounding) (req : ReturnRequest)
    (db : Db) (t : Z) (fs : list (option Exn)) (r : Rental) :
  no_fault fs ->
  lookup_in (customerId req) (movieId req) (rentals db) = Some r ->
  dateReturned r = None ->
  exists (r' : Rental) (days : Z),
    sent (w_res (serve policy req db t fs)) = Some (BRental r') /\
    r' ∈ rentals (w_db (serve policy req db t fs)) /\
    dateOut r' = dateOut r /\
    dateReturned r' = Some t /\
    days = numberOfRentalDays policy (dateOut r') t /\
    (days - 1) * msPerDay < t - dateOut r' < (days + 1) * msPerDay /\
    rentalFee r' = Some (inject_Z days * movie_dailyRentalRate (movie r))%Q /\
    (t = dateOut r + 7 * msPerDay ->
     (movie_dailyRentalRate (movie r) == 2)%Q ->
     days = 7 /\ exists fee, rentalFee r' = Some fee /\ (fee == 14)%Q).
Proof.
  intros Hf L D.
  rewrite (serve_returned policy req db t fs r) by auto using no_fault_fault_at.
  destruct (lookup_in_Some _ _ _ _ L) as (Hin & _ & _).
  exists (rental_return_at policy t r), (numberOfRentalDays policy (dateOut r) t).
  simpl. repeat split; try done.
  - by apply (save_doc_stored r).
  - pose proof (numberOfRentalDays_whole policy (dateOut r) t).
    pose proof msPerDay_pos. destruct policy; lia.
  - pose proof (numberOfRentalDays_whole policy (dateOut r) t).
    pose proof msPerDay_pos. destruct policy; lia.
  - subst t. apply numberOfRentalDays_exact.
  - subst t. rewrite numberOfRentalDays_exact. eexists. split; [done|].
    rewrite H0. reflexivity.
Qed.

Lemma rentalFee_is_days_times_rate_witness :
  exists (r' : Rental) (days : Z),
    sent (w_res (serve RoundUp sample_request (sample_db 5 9) (5 + 7 * msPerDay) []))
    = Some (BRental r') /\
    r' ∈ rentals (w_db (serve RoundUp sample_request (sample_db 5 9) (5 + 7 * msPerDay) [])) /\
    dateOut r' = dateOut (sample_rental 5) /\
    dateReturned r' = Some (5 + 7 * msPerDay) /\
    days = numberOfRentalDays RoundUp (dateOut r') (5 + 7 * msPerDay) /\
    (days - 1) * msPerDay < 5 + 7 * msPerDay - dateOut r' < (days + 1) * msPerDay /\
    rentalFee r' = Some (inject_Z days * movie_dailyRentalRate (movie (sample_rental 5)))%Q /\
    (5 + 7 * msPerDay = dateOut (sample_rental 5) + 7 * msPerDay ->
     (movie_dailyRentalRate (movie (sample_rental 5)) == 2)%Q ->
     days = 7 /\ exists fee, rentalFee r' = Some fee /\ (fee == 14)%Q).
Proof.
  apply (rentalFee_is_days_times_rate RoundUp sample_request (sample_db 5 9)
           (5 + 7 * msPerDay) [] (sample_rental 5)).
  - apply Forall_nil_2.
  - reflexivity.
  - reflexivity.
Defined.

(** The scenario of C2 evaluated: rate 2, checkout seven days before the
    return, stock 9 before. *)
Example seven_days_at_rate_2 :
  rentalFee <$> lookup_in 7 1
    (rentals (w_db (serve RoundDown sample_request (sample_db 0 9) (7 * msPerDay) [])))
  = Some (Some (14 # 1)%Q).
Proof. reflexivity. Qed.

(** C8. A rental returned at the very instant of its checkout: the method
    does not throw, and the fee it sets is defined and not negative (it is
    zero, under either rounding). *)
Theorem same_instant_return_fee (policy : DayRounding) (r : Rental) (w : World) :
  w_now w = dateOut r ->
  exists (r' : Rental) (fee : Q),
    rental_return policy r w = Ok r' w /\
    dateReturned r' = Some (dateOut r) /\
    rentalFee r' = Some fee /\ (0 <= fee)%Q /\ (fee == 0)%Q.
Proof.
  intros Hnow.
  exists (rental_return_at policy (dateOut r) r),
    (inject_Z 0 * movie_dailyRentalRate (movie r))%Q.
  unfold rental_return, Date_now, mbind, M_bind, mret, M_ret.
  rewrite Hnow. simpl. rewrite numberOfRentalDays_same.
  split; [done|]. split; [done|]. split; [done|]. split.
  - unfold Qle. simpl. lia.
  - apply Qmult_0_l.
Qed.

Lemma same_instant_return_fee_witness :
  exists (r' : Rental) (fee : Q),
    rental_return RoundUp (sample_rental 42) (fresh_world (sample_db 42 9) 42 [])
    = Ok r' (fresh_world (sample_db 42 9) 42 []) /\
    dateReturned r' = Some (dateOut (sample_rental 42)) /\
    rentalFee r' = Some fee /\ (0 <= fee)%Q /\ (fee == 0)%Q.
Proof.
  apply (same_instant_return_fee RoundUp (sample_rental 42)
           (fresh_world (sample_db 42 9) 42 [])).
  reflexivity.
Defined.

(* ===================================================================== *)
(** ** Rejections *)
(* ===================================================================== *)

(** C3. Two return requests for the same open rental, served one after the
    other without a store fault: the first is answered 200 with the
    rental, the second is answered 400 with the body "Return already
    processed" and leaves the store as the first one left it, so that the
    stock of the movie has gone up once, not twice. *)
Theorem second_return_rejected (policy : DayRounding) (req : ReturnRequest)
    (db : Db) (t1 t2 : Z) (fs1 fs2 : list (option Exn)) (r : Rental) :
  ids_unique db ->
  no_fault fs1 -> no_fault fs2 ->
  lookup_in (customerId req) (movieId req) (rentals db) = Some r ->
  dateReturned r = None ->
  exists r',
    w_res (serve policy req db t1 fs1) = mkRes 200 (Some (BRental r')) /\
    rental_id r' = rental_id r /\
    w_res (serve policy req (w_db (serve policy req db t1 fs1)) t2 fs2)
    = mkRes 400 (Some (BText "Return already processed")) /\
    w_db (serve policy req (w_db (serve policy req db t1 fs1)) t2 fs2)
    = w_db (serve policy req db t1 fs1) /\
    movies (w_db (serve policy req (w_db (serve policy req db t1 fs1)) t2 fs2))
    = alter inc_numberInStock (movieId req) (movies db) /\
    (forall mv, movies db !! movieId req = Some mv ->
       numberInStock <$>
         movies (w_db (serve policy req (w_db (serve policy req db t1 fs1)) t2 fs2))
           !! movieId req
       = Some (numberInStock mv + 1)).
Proof.
  intros Hu Hf1 Hf2 L D.
  rewrite (serve_returned policy req db t1 fs1 r) by auto using no_fault_fault_at.
  simpl.
  assert (L' : lookup_in (customerId req) (movieId req)
                 (save_doc (rental_return_at policy t1 r) (rentals db))
               = Some (rental_return_at policy t1 r))
    by (by apply (lookup_in_save_doc _ _ r)).
  destruct (lookup_in_Some _ _ _ _ L) as (_ & Hm & _).
  assert (Hmid : movie_id (movie r) = movieId req).
  { unfold matches in Hm. apply andb_true_iff in Hm as [_ Hm].
    by apply bool_decide_eq_true in Hm. }
  exists (rental_return_at policy t1 r).
  rewrite (serve_already_processed policy req _ t2 fs2
             (rental_return_at policy t1 r) t1)
    by auto using no_fault_fault_at.
  simpl. rewrite Hmid. repeat split; try done.
  intros mv Hmv. by rewrite lookup_alter_eq, Hmv.
Qed.

Lemma second_return_rejected_witness :
  exists r',
    w_res (serve RoundDown sample_request (sample_db 0 9) msPerDay [])
    = mkRes 200 (Some (BRental r')) /\
    rental_id r' = rental_id (sample_rental 0) /\
    w_res (serve RoundDown sample_request
             (w_db (serve RoundDown sample_request (sample_db 0 9) msPerDay []))
             (2 * msPerDay) [])
    = mkRes 400 (Some (BText "Return already processed")) /\
    w_db (serve RoundDown sample_request
            (w_db (serve RoundDown sample_request (sample_db 0 9) msPerDay []))
            (2 * msPerDay) [])
    = w_db (serve RoundDown sample_request (sample_db 0 9) msPerDay []) /\
    movies (w_db (serve RoundDown sample_request
                    (w_db (serve RoundDown sample_request (sample_db 0 9) msPerDay []))
                    (2 * msPerDay) []))
    = alter inc_numberInStock (movieId sample_request) (movies (sample_db 0 9)) /\
    (forall mv, movies (sample_db 0 9) !! movieId sample_request = Some mv ->
       numberInStock <$>
         movies (w_db (serve RoundDown sample_request
                         (w_db (serve RoundDown sample_request (sample_db 0 9) msPerDay []))
                         (2 * msPerDay) []))
           !! movieId sample_request
       = Some (numberInStock mv + 1)).
Proof.
  apply (second_return_rejected RoundDown sample_request (sample_db 0 9)
           msPerDay (2 * msPerDay) [] [] (sample_rental 0)).
  - apply NoDup_singleton.
  - apply Forall_nil_2.
  - apply Forall_nil_2.
  - reflexivity.
  - reflexivity.
Defined.

(** C4. A request whose customer and movie identifiers match no rental,
    the lookup itself being answered by the store: the response is 404
    with the body "Rental not found", nothing was handed to the error
    middleware, the store is what it was (no rental written, no stock
    changed), and the only call made on the store is the read. *)
Theorem unknown_rental_not_found (policy : DayRounding) (req : ReturnRequest)
    (db : Db) (t : Z) (fs : list (option Exn)) :
  fault_at fs 0 = None ->
  (forall r, r ∈ rentals db -> matches (customerId req) (movieId req) r = false) ->
  w_res (serve policy req db t fs) = mkRes 404 (Some (BText "Rental not found")) /\
  w_next (serve policy req db t fs) = None /\
  w_db (serve policy req db t fs) = db /\
  w_trace (serve policy req db t fs)
  = [Issued (FindOne (customerId req) (movieId req));
     Settled (FindOne (customerId req) (movieId req)) None].
Proof.
  intros F0 Hnone. apply lookup_in_None in Hnone.
  by rewrite (serve_not_found policy req db t fs).
Qed.

Lemma unknown_rental_not_found_witness :
  w_res (serve RoundDown (mkReturnRequest 8 1) (sample_db 0 9) 5 [])
  = mkRes 404 (Some (BText "Rental not found")) /\
  w_next (serve RoundDown (mkReturnRequest 8 1) (sample_db 0 9) 5 []) = None /\
  w_db (serve RoundDown (mkReturnRequest 8 1) (sample_db 0 9) 5 []) = sample_db 0 9 /\
  w_trace (serve RoundDown (mkReturnRequest 8 1) (sample_db 0 9) 5 [])
  = [Issued (FindOne (customerId (mkReturnRequest 8 1)) (movieId (mkReturnRequest 8 1)));
     Settled (FindOne (customerId (mkReturnRequest 8 1)) (movieId (mkReturnRequest 8 1))) None].
Proof.
  apply (unknown_rental_not_found RoundDown (mkReturnRequest 8 1) (sample_db 0 9) 5 []).
  - reflexivity.
  - intros r Hr. apply list_elem_of_singleton in Hr. subst r. reflexivity.
Defined.

(** C5. In a store that holds one or more rentals for a customer and movie
    pair, the lookup answered by the store returns one of them, and none
    of the rentals of the pair was checked out later than it: the return
    is applied to the most recent checkout. *)
Theorem lookup_most_recent_checkout (c m : ObjectId) (w : World) (r0 : Rental) :
  fault_at (w_faults w) 0 = None ->
  r0 ∈ rentals (w_db w) -> matches c m r0 = true ->
  exists (r : Rental) (w' : World),
    Rental_lookup c m w = Ok (Some r) w' /\
    w_db w' = w_db w /\
    r ∈ rentals (w_db w) /\
    customer_id (customer r) = c /\ movie_id (movie r) = m /\
    forall r', r' ∈ rentals (w_db w) ->
      customer_id (customer r') = c -> movie_id (movie r') = m ->
      dateOut r' <= dateOut r.
Proof.
  intros F0 Hin Hm.
  destruct (lookup_in_is_Some c m _ r0 Hin Hm) as [r L].
  destruct (lookup_in_Some _ _ _ _ L) as (Hr & Hmr & Hmax).
  exists r. unfold Rental_lookup, store_call. rewrite L.
  unfold matches in Hmr. apply andb_true_iff in Hmr as [Hc Hmv].
  apply bool_decide_eq_true in Hc. apply bool_decide_eq_true in Hmv.
  assert (Hmax' : forall r', r' ∈ rentals (w_db w) ->
            customer_id (customer r') = c -> movie_id (movie r') = m ->
            dateOut r' <= dateOut r).
  { intros r' Hr' Hc' Hm'. apply Hmax; [done|].
    unfold matches. by rewrite !bool_decide_eq_true_2. }
  unfold fault_at in F0.
  destruct (w_faults w) as [|[ex|] fs]; simpl in F0; try discriminate;
    eexists; (split; [reflexivity|]); simpl; by repeat split.
Qed.

Lemma lookup_most_recent_checkout_witness :
  exists (r : Rental) (w' : World),
    Rental_lookup 7 1 (fresh_world rerented_db 200 []) = Ok (Some r) w' /\
    w_db w' = w_db (fresh_world rerented_db 200 []) /\
    r ∈ rentals (w_db (fresh_world rerented_db 200 [])) /\
    customer_id (customer r) = 7%N /\ movie_id (movie r) = 1%N /\
    forall r', r' ∈ rentals (w_db (fresh_world rerented_db 200 [])) ->
      customer_id (customer r') = 7%N -> movie_id (movie r') = 1%N ->
      dateOut r' <= dateOut r.
Proof.
  apply (lookup_most_recent_checkout 7 1 (fresh_world rerented_db 200 [])
           earlier_rental).
  - reflexivity.
  - apply list_elem_of_here.
  - reflexivity.
Defined.

(* ===================================================================== *)
(** ** The order of the two writes *)
(* ===================================================================== *)

(** C6. Whatever the request, the store and the faults: in the calls the
    handler makes on the store, an inventory update is issued only after a
    rental write has settled as fulfilled, and no call is issued while
    another one is pending. *)
Theorem save_settles_before_update (policy : DayRounding) (req : ReturnRequest)
    (db : Db) (t : Z) (fs : list (option Exn)) :
  save_before_update (w_trace (serve policy req db t fs)) /\
  sequential (w_trace (serve policy req db t fs)).
Proof.
  destruct (serve_Served policy req db t fs); simpl; (split; [|done]);
    intros i [id Hi];
    repeat (destruct i as [|i]; simpl in Hi; try discriminate);
    exists 3%nat; (split; [lia|]); eexists; reflexivity.
Qed.

(* ===================================================================== *)
(** ** The return fields are written once *)
(* ===================================================================== *)









(** In the two requests of the witness the later rental is saved once, by
    the first request, and the earlier one never. *)
Example rerented_saves :
  saves_of_rental 11
    (serve_worlds RoundDown
       [(sample_request, 150, []); (sample_request, 300, [])] rerented_db) = 1%nat /\
  saves_of_rental 10
    (serve_worlds RoundDown
       [(sample_request, 150, []); (sample_request, 300, [])] rerented_db) = 0%nat.
Proof. split; reflexivity. Qed.

(** What the two requests of the witness leave: the earlier rental as it
    was, the later one returned at the time of the first request. *)
Example rerented_after_two_requests :
  rentals (serve_all RoundDown
             [(sample_request, 150, []); (sample_request, 300, [])] rerented_db)
  = [earlier_rental;
     mkRental 11 (mkCustomerSnapshot 7 "12345" "12345")
       (mkMovieSnapshot 1 "12345" 2) 100 (Some 150) (Some (0 # 1)%Q)].
Proof. reflexivity. Qed.

(* ===================================================================== *)
(** ** The bounds of the stock *)
(* ===================================================================== *)

(** The increment keeps the stock at or above the minimum of the schema,
    and keeps it at or below the maximum only from below the maximum. *)
Lemma inc_numberInStock_min (m : Movie) :
  numberInStock_min <= numberInStock m ->
  numberInStock_min <= numberInStock (inc_numberInStock m).
Proof. simpl. lia. Qed.

Lemma inc_numberInStock_valid_iff (m : Movie) :
  numberInStock_valid m ->
  numberInStock_valid (inc_numberInStock m) <-> numberInStock m < numberInStock_max.
Proof. unfold numberInStock_valid. simpl. lia. Qed.

(** C9. The bound of 255 is not kept by the return workflow.  A movie
    with 255 in stock, which the schema accepts, and an open rental of it:
    the return is answered 200 and leaves the movie with 256 in stock,
    which the schema rejects. *)
Theorem increment_exceeds_stock_bound :
  movies (sample_db 0 255) !! 1%N = Some (sample_movie 255) /\
  numberInStock_valid (sample_movie 255) /\
  statusCode (w_res (serve RoundDown sample_request (sample_db 0 255) msPerDay [])) = 200 /\
  movies (w_db (serve RoundDown sample_request (sample_db 0 255) msPerDay [])) !! 1%N
  = Some (sample_movie 256) /\
  ~ numberInStock_valid (sample_movie 256).
Proof.
  split; [reflexivity|]. split; [|split; [reflexivity|split; [reflexivity|]]].
  - unfold numberInStock_valid, numberInStock_min, numberInStock_max. simpl. lia.
  - unfold numberInStock_valid, numberInStock_min, numberInStock_max. simpl. lia.
Qed.

(* ===================================================================== *)
(** ** A rejected save *)
(* ===================================================================== *)

(** C10. When the save of the rental is rejected with an exception: no
    inventory update is issued, the store is what it was before the
    request (the stock of every movie included), no response is sent, and
    the exception is handed to [next]. *)
Theorem save_failure_stops_workflow (policy : DayRounding) (req : ReturnRequest)
    (db : Db) (t : Z) (fs : list (option Exn)) (r : Rental) (ex : Exn) :
  Settled (Save r) (Some ex) ∈ w_trace (serve policy req db t fs) ->
  w_next (serve policy req db t fs) = Some ex /\
  sent (w_res (serve policy req db t fs)) = None /\
  w_db (serve policy req db t fs) = db /\
  movies (w_db (serve policy req db t fs)) = movies db /\
  forall id, Issued (UpdateOne id) ∉ w_trace (serve policy req db t fs).
Proof.
  intros Hin.
  destruct (serve_Served policy req db t fs); simpl in *;
    repeat (apply elem_of_cons in Hin as [Hin|Hin]; [try discriminate Hin|]);
    try (by apply elem_of_nil in Hin).
  injection Hin as -> ->.
  repeat split; try done.
  intros id Hid.
  repeat (apply elem_of_cons in Hid as [Hid|Hid]; [try discriminate Hid|]).
  by apply elem_of_nil in Hid.
Qed.

Lemma save_failure_stops_workflow_witness :
  w_next (serve RoundDown sample_request (sample_db 0 9) msPerDay
            [None; Some (StoreError "write failed")])
  = Some (StoreError "write failed") /\
  sent (w_res (serve RoundDown sample_request (sample_db 0 9) msPerDay
                 [None; Some (StoreError "write failed")])) = None /\
  w_db (serve RoundDown sample_request (sample_db 0 9) msPerDay
          [None; Some (StoreError "write failed")]) = sample_db 0 9 /\
  movies (w_db (serve RoundDown sample_request (sample_db 0 9) msPerDay
                  [None; Some (StoreError "write failed")]))
  = movies (sample_db 0 9) /\
  forall id, Issued (UpdateOne id)
    ∉ w_trace (serve RoundDown sample_request (sample_db 0 9) msPerDay
                 [None; Some (StoreError "write failed")]).
Proof.
  apply (save_failure_stops_workflow RoundDown sample_request (sample_db 0 9)
           msPerDay [None; Some (StoreError "write failed")]
           (rental_return_at RoundDown msPerDay (sample_rental 0))
           (StoreError "write failed")).
  apply (list_elem_of_lookup_2 _ 3%nat). reflexivity.
Defined.

(* ===================================================================== *)
(** ** The handler over any Rental model: what a request does *)
(* ===================================================================== *)

(** The handler of the workflow is the instance at the lookup and the
    method of the Rental model. *)
Lemma serve_is_serve_with (policy : DayRounding) (req : ReturnRequest)
    (db : Db) (t : Z) (fs : list (option Exn)) :
  serve policy req db t fs
  = serve_with lookup_in (rental_return_at policy) req db t fs.
Proof. reflexivity. Qed.

(** The final world of a request, by the point the handler leaves at. *)
Lemma serve_with_eq
    (lookup : ObjectId -> ObjectId -> list Rental -> option Rental)
    (ret : Z -> Rental -> Rental) (req : ReturnRequest)
    (db : Db) (t : Z) (fs : list (option Exn)) :
  serve_with lookup ret req db t fs =
  let find := FindOne (customerId req) (movieId req) in
  match fault_at fs 0 with
  | Some ex =>
      mkWorld db t (tail fs) [Issued find; Settled find (Some ex)]
        fresh_res (Some ex)
  | None =>
      match lookup (customerId req) (movieId req) (rentals db) with
      | None =>
          mkWorld db t (tail fs) [Issued find; Settled find None]
            (mkRes 404 (Some (BText "Rental not found"))) None
      | Some r =>
          match dateReturned r with
          | Some _ =>
              mkWorld db t (tail fs) [Issued find; Settled find None]
                (mkRes 400 (Some (BText "Return already processed"))) None
          | None =>
              let r' := ret t r in
              match fault_at fs 1 with
              | Some ex =>
                  mkWorld db t (tail (tail fs))
                    [Issued find; Settled find None;
                     Issued (Save r'); Settled (Save r') (Some ex)]
                    fresh_res (Some ex)
              | None =>
                  match fault_at fs 2 with
                  | Some ex =>
                      mkWorld (mkDb (save_doc r' (rentals db)) (movies db))
                        t (tail (tail (tail fs)))
                        [Issued find; Settled find None;
                         Issued (Save r'); Settled (Save r') None;
                         Issued (UpdateOne (movie_id (movie r')));
                         Settled (UpdateOne (movie_id (movie r'))) (Some ex)]
                        fresh_res (Some ex)
                  | None =>
                      mkWorld
                        (mkDb (save_doc r' (rentals db))
                           (alter inc_numberInStock (movie_id (movie r')) (movies db)))
                        t (tail (tail (tail fs)))
                        [Issued find; Settled find None;
                         Issued (Save r'); Settled (Save r') None;
                         Issued (UpdateOne (movie_id (movie r')));
                         Settled (UpdateOne (movie_id (movie r'))) None]
                        (mkRes 200 (Some (BRental r'))) None
                  end
              end
          end
      end
  end.
Proof.
  unfold serve_with, asyncMiddleware, post_returns_with, Rental_lookup_with,
    rental_return_with, rental_save, Movie_update_inc, Date_now, res_status,
    res_send, store_call, fresh_world, next, fault_at.
  unfold mbind, M_bind, mret, M_ret.
  destruct fs as [|[?|] [|[?|] [|[?|] ?]]]; simpl; try reflexivity;
    destruct (lookup (customerId req) (movieId req) (rentals db)) as [r|];
    simpl; try reflexivity;
    destruct (dateReturned r); reflexivity.
Qed.

(** Splits a goal on [serve_with] into the six outcomes. *)
Ltac serve_with_cases lookup ret req db t fs :=
  rewrite !(serve_with_eq lookup ret req db t fs); cbv zeta;
  let F0 := fresh "F0" in
  let L := fresh "L" in
  let D := fresh "D" in
  let F1 := fresh "F1" in
  let F2 := fresh "F2" in
  destruct (fault_at fs 0) eqn:F0;
  [|destruct (lookup (customerId req) (movieId req) (rentals db)) as [?r|] eqn:L;
    [destruct (dateReturned r) eqn:D;
     [|destruct (fault_at fs 1) eqn:F1; [|destruct (fault_at fs 2) eqn:F2]]|]];
  simpl.

(** Membership in a trace that is written out. *)
Ltac in_trace H :=
  repeat (apply elem_of_cons in H as [H|H]; [try discriminate H|]);
  try (by apply elem_of_nil in H).

(** Finds an event in a trace that is written out. *)
Ltac trace_elem :=
  first [apply list_elem_of_here | apply list_elem_of_further; trace_elem].

(** X1. Whatever the Rental model, the request, the store and the faults: a
    request ends either with a response sent and nothing handed to [next],
    or with an exception handed to [next] and nothing sent, the status
    still 200; and the exception handed to [next] is the one a store call
    was rejected with. *)
Theorem response_or_next
    (lookup : ObjectId -> ObjectId -> list Rental -> option Rental)
    (ret : Z -> Rental -> Rental) (req : ReturnRequest)
    (db : Db) (t : Z) (fs : list (option Exn)) :
  ((is_Some (sent (w_res (serve_with lookup ret req db t fs)))
    /\ w_next (serve_with lookup ret req db t fs) = None)
   \/ (w_res (serve_with lookup ret req db t fs) = fresh_res
       /\ is_Some (w_next (serve_with lookup ret req db t fs)))) /\
  forall ex,
    w_next (serve_with lookup ret req db t fs) = Some ex <->
    exists c, Settled c (Some ex) ∈ w_trace (serve_with lookup ret req db t fs).
Proof.
  serve_with_cases lookup ret req db t fs; (split; [by eauto|]); intros ex; split;
    try discriminate;
    try (intros [c Hc]; in_trace Hc; congruence);
    try (intros [= <-]; eexists; trace_elem).
Qed.

(** X2. Whatever the Rental model: a response that is sent is one of
    three. 404 with "Rental not found" when the lookup found nothing; 400
    with "Return already processed" when the rental found has
    [dateReturned] set; 200 with the rental as the method [return] left it
    when the rental found was open. *)
Theorem response_is_one_of_three
    (lookup : ObjectId -> ObjectId -> list Rental -> option Rental)
    (ret : Z -> Rental -> Rental) (req : ReturnRequest)
    (db : Db) (t : Z) (fs : list (option Exn)) (b : Body) :
  sent (w_res (serve_with lookup ret req db t fs)) = Some b ->
  (statusCode (w_res (serve_with lookup ret req db t fs)) = 404
   /\ b = BText "Rental not found"
   /\ lookup (customerId req) (movieId req) (rentals db) = None)
  \/ (statusCode (w_res (serve_with lookup ret req db t fs)) = 400
      /\ b = BText "Return already processed"
      /\ exists r, lookup (customerId req) (movieId req) (rentals db) = Some r
           /\ is_Some (dateReturned r))
  \/ (statusCode (w_res (serve_with lookup ret req db t fs)) = 200
      /\ exists r, lookup (customerId req) (movieId req) (rentals db) = Some r
           /\ dateReturned r = None /\ b = BRental (ret t r)).
Proof.
  serve_with_cases lookup ret req db t fs; intros [= <-].
  - right. left. eauto 10.
  - right. right. eauto 10.
  - left. eauto.
Qed.

Lemma response_is_one_of_three_witness :
  (statusCode (w_res (serve_with lookup_in (rental_return_at RoundDown)
                        sample_request returned_db 60 [])) = 404
   /\ BText "Return already processed" = BText "Rental not found"
   /\ lookup_in (customerId sample_request) (movieId sample_request)
        (rentals returned_db) = None)
  \/ (statusCode (w_res (serve_with lookup_in (rental_return_at RoundDown)
                           sample_request returned_db 60 [])) = 400
      /\ BText "Return already processed" = BText "Return already processed"
      /\ exists r, lookup_in (customerId sample_request) (movieId sample_request)
                     (rentals returned_db) = Some r
           /\ is_Some (dateReturned r))
  \/ (statusCode (w_res (serve_with lookup_in (rental_return_at RoundDown)
                           sample_request returned_db 60 [])) = 200
      /\ exists r, lookup_in (customerId sample_request) (movieId sample_request)
                     (rentals returned_db) = Some r
           /\ dateReturned r = None
           /\ BText "Return already processed" = BRental (rental_return_at RoundDown 60 r)).
Proof.
  apply (response_is_one_of_three lookup_in (rental_return_at RoundDown)
           sample_request returned_db 60 []).
  reflexivity.
Defined.

(** X3. Whatever the Rental model and the faults: when the lookup finds no
    rental that is still open (nothing, or a rental with [dateReturned]
    set), the request leaves the store as it was and makes no call on it
    but the read. *)
Theorem no_write_without_open_rental
    (lookup : ObjectId -> ObjectId -> list Rental -> option Rental)
    (ret : Z -> Rental -> Rental) (req : ReturnRequest)
    (db : Db) (t : Z) (fs : list (option Exn)) :
  (forall r, lookup (customerId req) (movieId req) (rentals db) = Some r ->
     is_Some (dateReturned r)) ->
  w_db (serve_with lookup ret req db t fs) = db /\
  forall e, e ∈ w_trace (serve_with lookup ret req db t fs) ->
    e = Issued (FindOne (customerId req) (movieId req))
    \/ exists f, e = Settled (FindOne (customerId req) (movieId req)) f.
Proof.
  intros Hopen.
  serve_with_cases lookup ret req db t fs;
    try (destruct (Hopen _ eq_refl) as [? ?]; congruence);
    (split; [done|]); intros ev Hev; in_trace Hev; subst ev; eauto.
Qed.

Lemma no_write_without_open_rental_witness :
  w_db (serve_with lookup_in (rental_return_at RoundDown) sample_request
          returned_db 60 [None; Some (StoreError "write failed")])
  = returned_db /\
  forall e,
    e ∈ w_trace (serve_with lookup_in (rental_return_at RoundDown) sample_request
                   returned_db 60 [None; Some (StoreError "write failed")]) ->
    e = Issued (FindOne (customerId sample_request) (movieId sample_request))
    \/ exists f, e = Settled (FindOne (customerId sample_request)
                                (movieId sample_request)) f.
Proof.
  apply (no_write_without_open_rental lookup_in (rental_return_at RoundDown)
           sample_request returned_db 60 [None; Some (StoreError "write failed")]).
  intros r Hr. injection Hr as <-. exists 50. reflexivity.
Defined.

(** X4. Whatever the Rental model: when the inventory update is rejected,
    the rental found was open and is now stored as the method [return]
    left it, while the Movie collection is as before the request; nothing
    is sent and the exception is handed to [next]. *)
Theorem rejected_update_leaves_rental_returned
    (lookup : ObjectId -> ObjectId -> list Rental -> option Rental)
    (ret : Z -> Rental -> Rental) (req : ReturnRequest)
    (db : Db) (t : Z) (fs : list (option Exn)) (id : ObjectId) (ex : Exn) :
  Settled (UpdateOne id) (Some ex) ∈ w_trace (serve_with lookup ret req db t fs) ->
  exists r,
    lookup (customerId req) (movieId req) (rentals db) = Some r /\
    dateReturned r = None /\
    id = movie_id (movie (ret t r)) /\
    rentals (w_db (serve_with lookup ret req db t fs))
    = save_doc (ret t r) (rentals db) /\
    movies (w_db (serve_with lookup ret req db t fs)) = movies db /\
    w_res (serve_with lookup ret req db t fs) = fresh_res /\
    w_next (serve_with lookup ret req db t fs) = Some ex.
Proof.
  serve_with_cases lookup ret req db t fs; intros Hin; in_trace Hin.
  injection Hin as -> ->. eauto 10.
Qed.

Lemma rejected_update_leaves_rental_returned_witness :
  exists r,
    lookup_in (customerId sample_request) (movieId sample_request)
      (rentals (sample_db 0 9)) = Some r /\
    dateReturned r = None /\
    1%N = movie_id (movie (rental_return_at RoundDown msPerDay r)) /\
    rentals (w_db (serve_with lookup_in (rental_return_at RoundDown) sample_request
                     (sample_db 0 9) msPerDay
                     [None; None; Some (StoreError "write failed")]))
    = save_doc (rental_return_at RoundDown msPerDay r) (rentals (sample_db 0 9)) /\
    movies (w_db (serve_with lookup_in (rental_return_at RoundDown) sample_request
                    (sample_db 0 9) msPerDay
                    [None; None; Some (StoreError "write failed")]))
    = movies (sample_db 0 9) /\
    w_res (serve_with lookup_in (rental_return_at RoundDown) sample_request
             (sample_db 0 9) msPerDay
             [None; None; Some (StoreError "write failed")]) = fresh_res /\
    w_next (serve_with lookup_in (rental_return_at RoundDown) sample_request
              (sample_db 0 9) msPerDay
              [None; None; Some (StoreError "write failed")])
    = Some (StoreError "write failed").
Proof.
  apply (rejected_update_leaves_rental_returned lookup_in
           (rental_return_at RoundDown) sample_request (sample_db 0 9) msPerDay
           [None; None; Some (StoreError "write failed")] 1%N
           (StoreError "write failed")).
  apply (list_elem_of_lookup_2 _ 5%nat). reflexivity.
Defined.

(** X5. Whatever the Rental model: a return of a rental whose movie is not
    in the Movie collection is still answered 200 with the rental, and the
    Movie collection is left as it was: the update creates no movie. *)
Theorem return_of_missing_movie
    (lookup : ObjectId -> ObjectId -> list Rental -> option Rental)
    (ret : Z -> Rental -> Rental) (req : ReturnRequest)
    (db : Db) (t : Z) (fs : list (option Exn)) (r : Rental) :
  no_fault fs ->
  lookup (customerId req) (movieId req) (rentals db) = Some r ->
  dateReturned r = None ->
  movies db !! movie_id (movie (ret t r)) = None ->
  w_res (serve_with lookup ret req db t fs) = mkRes 200 (Some (BRental (ret t r))) /\
  rentals (w_db (serve_with lookup ret req db t fs)) = save_doc (ret t r) (rentals db) /\
  movies (w_db (serve_with lookup ret req db t fs)) = movies db.
Proof.
  intros Hf L D Hm.
  rewrite serve_with_eq, !no_fault_fault_at, L, D by done. simpl.
  split; [done|]. split; [done|].
  apply map_eq. intros id. rewrite lookup_alter.
  case_decide as E; [|done]. subst id. by rewrite Hm.
Qed.

Lemma return_of_missing_movie_witness :
  w_res (serve_with lookup_in (rental_return_at RoundDown) sample_request
           orphan_db msPerDay [])
  = mkRes 200 (Some (BRental (rental_return_at RoundDown msPerDay (sample_rental 0)))) /\
  rentals (w_db (serve_with lookup_in (rental_return_at RoundDown) sample_request
                   orphan_db msPerDay []))
  = save_doc (rental_return_at RoundDown msPerDay (sample_rental 0)) (rentals orphan_db) /\
  movies (w_db (serve_with lookup_in (rental_return_at RoundDown) sample_request
                  orphan_db msPerDay []))
  = movies orphan_db.
Proof.
  apply (return_of_missing_movie lookup_in (rental_return_at RoundDown)
           sample_request orphan_db msPerDay [] (sample_rental 0)).
  - apply Forall_nil_2.
  - reflexivity.
  - reflexivity.
  - reflexivity.
Defined.

(* ===================================================================== *)
(** ** The handler over any Rental model: sequences of requests *)
(* ===================================================================== *)

Lemma serve_all_with_cons
    (lookup : ObjectId -> ObjectId -> list Rental -> option Rental)
    (ret : Z -> Rental -> Rental) (req : ReturnRequest) (t : Z)
    (fs : list (option Exn))
    (rest : list (ReturnRequest * Z * list (option Exn))) (db : Db) :
  serve_all_with lookup ret ((req, t, fs) :: rest) db
  = serve_all_with lookup ret rest (w_db (serve_with lookup ret req db t fs)).
Proof.
  unfold serve_all_with. simpl. rewrite last_cons.
  by destruct (last (serve_worlds_with lookup ret rest _)).
Qed.

(** What one request does to the two collections. *)
Lemma serve_with_db
    (lookup : ObjectId -> ObjectId -> list Rental -> option Rental)
    (ret : Z -> Rental -> Rental) (req : ReturnRequest)
    (db : Db) (t : Z) (fs : list (option Exn)) :
  (rentals (w_db (serve_with lookup ret req db t fs)) = rentals db
   \/ exists r, lookup (customerId req) (movieId req) (rentals db) = Some r
        /\ dateReturned r = None
        /\ rentals (w_db (serve_with lookup ret req db t fs))
           = save_doc (ret t r) (rentals db)) /\
  ((returned_rental (serve_with lookup ret req db t fs) = None
    /\ movies (w_db (serve_with lookup ret req db t fs)) = movies db)
   \/ exists r, lookup (customerId req) (movieId req) (rentals db) = Some r
        /\ dateReturned r = None
        /\ returned_rental (serve_with lookup ret req db t fs) = Some (ret t r)
        /\ rentals (w_db (serve_with lookup ret req db t fs))
           = save_doc (ret t r) (rentals db)
        /\ movies (w_db (serve_with lookup ret req db t fs))
           = alter inc_numberInStock (movie_id (movie (ret t r))) (movies db)).
Proof.
  serve_with_cases lookup ret req db t fs; unfold returned_rental; simpl;
    split; eauto 10.
Qed.

Lemma add_stock_0 (m : Movie) : add_stock 0 m = m.
Proof. destruct m. unfold add_stock. simpl. f_equal. lia. Qed.

Lemma add_stock_inc (n : Z) (m : Movie) :
  add_stock n (inc_numberInStock m) = add_stock (1 + n) m.
Proof. unfold add_stock, inc_numberInStock. simpl. f_equal. lia. Qed.

Lemma returns_of_movie_cons (id : ObjectId) (w : World) (ws : list World) :
  returns_of_movie id (w :: ws)
  = ((if decide (movie_id ∘ movie <$> returned_rental w = Some id) then 1 else 0)
     + returns_of_movie id ws)%nat.
Proof.
  unfold returns_of_movie. rewrite filter_cons.
  by destruct (decide (movie_id ∘ movie <$> returned_rental w = Some id)).
Qed.

Lemma returns_of_rental_cons (i : ObjectId) (w : World) (ws : list World) :
  returns_of_rental i (w :: ws)
  = ((if decide (rental_id <$> returned_rental w = Some i) then 1 else 0)
     + returns_of_rental i ws)%nat.
Proof.
  unfold returns_of_rental. rewrite filter_cons.
  by destruct (decide (rental_id <$> returned_rental w = Some i)).
Qed.

(** X6. Whatever the Rental model, along any sequence of requests, at any
    times and under any faults: a movie of the collection ends with its
    title, genre and daily rate as they were and with its stock raised by
    exactly the number of requests that were answered with a rental of
    that movie; and a movie that was not in the collection is not in it
    afterwards. *)
Theorem stock_counts_answered_returns
    (lookup : ObjectId -> ObjectId -> list Rental -> option Rental)
    (ret : Z -> Rental -> Rental)
    (reqs : list (ReturnRequest * Z * list (option Exn))) (db : Db)
    (id : ObjectId) :
  movies (serve_all_with lookup ret reqs db) !! id
  = add_stock (Z.of_nat (returns_of_movie id (serve_worlds_with lookup ret reqs db)))
    <$> movies db !! id.
Proof.
  revert db. induction reqs as [|[[req t] fs] reqs IH]; intros db.
  - unfold serve_all_with. simpl.
    destruct (movies db !! id) as [mv|]; simpl; [|done].
    by rewrite add_stock_0.
  - rewrite serve_all_with_cons, IH. simpl. rewrite returns_of_movie_cons.
    destruct (serve_with_db lookup ret req db t fs)
      as [_ [[Hnone ->]|(r & _ & _ & Hsome & _ & ->)]].
    + rewrite Hnone. by rewrite decide_False by done.
    + rewrite Hsome, lookup_alter.
      destruct (decide (movie_id (movie (ret t r)) = id)) as [E|E].
      * subst id. rewrite decide_True by done.
        destruct (movies db !! movie_id (movie (ret t r))) as [mv|]; simpl; [|done].
        rewrite add_stock_inc. do 2 f_equal. lia.
      * rewrite decide_False by (simpl; congruence). done.
Qed.

(** X7. Whatever the Rental model, along any sequence of requests: the
    Rental collection keeps the same identifiers in the same order and
    the Movie collection keeps the same identifiers; the workflow creates
    and deletes no document. *)
Theorem collections_keep_their_documents
    (lookup : ObjectId -> ObjectId -> list Rental -> option Rental)
    (ret : Z -> Rental -> Rental)
    (reqs : list (ReturnRequest * Z * list (option Exn))) (db : Db) :
  rental_id <$> rentals (serve_all_with lookup ret reqs db) = rental_id <$> rentals db /\
  dom (movies (serve_all_with lookup ret reqs db)) = dom (movies db).
Proof.
  revert db. induction reqs as [|[[req t] fs] reqs IH]; intros db; [done|].
  rewrite serve_all_with_cons.
  destruct (IH (w_db (serve_with lookup ret req db t fs))) as [-> ->].
  destruct (serve_with_db lookup ret req db t fs) as [Hr Hm]. split.
  - destruct Hr as [->|(r & _ & _ & ->)]; [done|]. apply save_doc_ids.
  - destruct Hm as [[_ ->]|(r & _ & _ & _ & _ & ->)]; [done|].
    apply dom_alter_L.
Qed.

(** Once every stored rental with the identifier [i] is returned, no
    request is answered with the rental [i] any more. *)
Lemma rental_closed_step
    (lookup : ObjectId -> ObjectId -> list Rental -> option Rental)
    (ret : Z -> Rental -> Rental) (req : ReturnRequest)
    (db : Db) (t : Z) (fs : list (option Exn)) (i : ObjectId) :
  (forall c m l r, lookup c m l = Some r -> r ∈ l) ->
  (forall t r, rental_id (ret t r) = rental_id r /\ is_Some (dateReturned (ret t r))) ->
  (rental_closed i db ->
     rental_closed i (w_db (serve_with lookup ret req db t fs))
     /\ rental_id <$> returned_rental (serve_with lookup ret req db t fs) <> Some i) /\
  (rental_id <$> returned_rental (serve_with lookup ret req db t fs) = Some i ->
     rental_closed i (w_db (serve_with lookup ret req db t fs))).
Proof.
  intros Hl Hr.
  assert (Hsave : forall r, rental_closed i db \/ rental_id r = i ->
            rental_closed i (mkDb (save_doc (ret t r) (rentals db)) (movies db))).
  { intros r Hor d' Hd' Hid. simpl in Hd'.
    apply elem_of_save_doc in Hd' as (d & Hd & ->).
    case_bool_decide as E; [apply Hr|].
    destruct Hor as [Hc|Hri]; [by apply Hc|].
    destruct (Hr t r) as [Hrid _]. congruence. }
  destruct (serve_with_db lookup ret req db t fs)
    as [Hrent [[Hnone Hmov]|(r & L & D & Hsome & Hrent' & Hmov)]].
  - rewrite Hnone. simpl. split; [|done]. intros Hc. split; [|done].
    destruct Hrent as [Hsame|(r & L & D & Hsame)];
      intros d Hd Hid; rewrite Hsame in Hd.
    + by apply Hc.
    + apply (Hsave r (or_introl Hc) d); done.
  - rewrite Hsome. simpl. destruct (Hr t r) as [Hrid _]. split.
    + intros Hc. split.
      * intros d Hd Hid. rewrite Hrent' in Hd. apply (Hsave r (or_introl Hc) d); done.
      * intros [= E]. destruct (Hc r (Hl _ _ _ _ L)) as [x Hx]; congruence.
    + intros [= E] d Hd Hid. rewrite Hrent' in Hd.
      apply (Hsave r) with (d := d); [right; congruence|done|done].
Qed.

Lemma rental_closed_stays
    (lookup : ObjectId -> ObjectId -> list Rental -> option Rental)
    (ret : Z -> Rental -> Rental)
    (reqs : list (ReturnRequest * Z * list (option Exn))) (db : Db) (i : ObjectId) :
  (forall c m l r, lookup c m l = Some r -> r ∈ l) ->
  (forall t r, rental_id (ret t r) = rental_id r /\ is_Some (dateReturned (ret t r))) ->
  rental_closed i db ->
  returns_of_rental i (serve_worlds_with lookup ret reqs db) = 0%nat.
Proof.
  intros Hl Hr. revert db.
  induction reqs as [|[[req t] fs] reqs IH]; intros db Hc; [done|].
  simpl. rewrite returns_of_rental_cons.
  destruct (rental_closed_step lookup ret req db t fs i Hl Hr) as [Hstep _].
  destruct (Hstep Hc) as [Hc' Hne].
  rewrite decide_False by done. by rewrite IH.
Qed.

(** X8. For a lookup that answers with a document of the collection and a
    method [return] that keeps the identifier and sets [dateReturned]:
    along any sequence of requests served one after the other, at any
    times and under any faults, each rental is the answer of at most one
    request; no rental is returned twice. *)
Theorem rental_returned_at_most_once
    (lookup : ObjectId -> ObjectId -> list Rental -> option Rental)
    (ret : Z -> Rental -> Rental)
    (reqs : list (ReturnRequest * Z * list (option Exn))) (db : Db) (i : ObjectId) :
  (forall c m l r, lookup c m l = Some r -> r ∈ l) ->
  (forall t r, rental_id (ret t r) = rental_id r /\ is_Some (dateReturned (ret t r))) ->
  (returns_of_rental i (serve_worlds_with lookup ret reqs db) <= 1)%nat.
Proof.
  intros Hl Hr. revert db.
  induction reqs as [|[[req t] fs] reqs IH]; intros db;
    [unfold returns_of_rental; simpl; lia|].
  simpl. rewrite returns_of_rental_cons.
  destruct (decide (rental_id <$> returned_rental (serve_with lookup ret req db t fs)
                    = Some i)) as [Hit|Hmiss].
  - destruct (rental_closed_step lookup ret req db t fs i Hl Hr) as [_ Hstep].
    rewrite (rental_closed_stays lookup ret reqs _ i Hl Hr (Hstep Hit)). lia.
  - specialize (IH (w_db (serve_with lookup ret req db t fs))). lia.
Qed.

Lemma rental_returned_at_most_once_witness :
  Nat.le
    (returns_of_rental 10
       (serve_worlds_with lookup_in (rental_return_at RoundDown)
          [(sample_request, msPerDay, []); (sample_request, 2 * msPerDay, [])]
          (sample_db 0 9)))
    1.
Proof.
  apply (rental_returned_at_most_once lookup_in (rental_return_at RoundDown)
           [(sample_request, msPerDay, []); (sample_request, 2 * msPerDay, [])]
           (sample_db 0 9) 10).
  - intros c m l r H. exact (proj1 (lookup_in_Some c m l r H)).
  - intros t r. split; [reflexivity|]. exists t. reflexivity.
Defined.

(** The two requests of the witness: the first is answered with the
    rental, the second is not, and the stock went from 9 to 10. *)
Example two_requests_one_return :
  returns_of_rental 10
    (serve_worlds_with lookup_in (rental_return_at RoundDown)
       [(sample_request, msPerDay, []); (sample_request, 2 * msPerDay, [])]
       (sample_db 0 9)) = 1%nat /\
  returns_of_movie 1
    (serve_worlds_with lookup_in (rental_return_at RoundDown)
       [(sample_request, msPerDay, []); (sample_request, 2 * msPerDay, [])]
       (sample_db 0 9)) = 1%nat /\
  numberInStock <$>
    movies (serve_all_with lookup_in (rental_return_at RoundDown)
              [(sample_request, msPerDay, []); (sample_request, 2 * msPerDay, [])]
              (sample_db 0 9)) !! 1%N = Some 10.
Proof. repeat split; reflexivity. Qed.

(** X9. With the lookup and the method of the Rental model: when the
    inventory update of a return is rejected, repeating the request does
    not make up for it.  The repeat is answered 400 with "Return already
    processed" and writes nothing, so the Movie collection is still as it
    was before the first request. *)
Theorem retry_after_rejected_update (policy : DayRounding) (req : ReturnRequest)
    (db : Db) (t1 t2 : Z) (fs1 fs2 : list (option Exn)) (r : Rental) (ex : Exn) :
  ids_unique db ->
  lookup_in (customerId req) (movieId req) (rentals db) = Some r ->
  dateReturned r = None ->
  fault_at fs1 0 = None -> fault_at fs1 1 = None -> fault_at fs1 2 = Some ex ->
  fault_at fs2 0 = None ->
  w_next (serve policy req db t1 fs1) = Some ex /\
  sent (w_res (serve policy req db t1 fs1)) = None /\
  w_res (serve policy req (w_db (serve policy req db t1 fs1)) t2 fs2)
  = mkRes 400 (Some (BText "Return already processed")) /\
  w_db (serve policy req (w_db (serve policy req db t1 fs1)) t2 fs2)
  = w_db (serve policy req db t1 fs1) /\
  movies (w_db (serve policy req (w_db (serve policy req db t1 fs1)) t2 fs2))
  = movies db.
Proof.
  intros Hu L D F0 F1 F2 F0'.
  rewrite (serve_is_serve_with policy req db t1 fs1), serve_with_eq.
  rewrite F0, L, D. cbv zeta. rewrite F1, F2. simpl.
  assert (L' : lookup_in (customerId req) (movieId req)
                 (save_doc (rental_return_at policy t1 r) (rentals db))
               = Some (rental_return_at policy t1 r))
    by (by apply (lookup_in_save_doc _ _ r)).
  rewrite (serve_already_processed policy req _ t2 fs2
             (rental_return_at policy t1 r) t1) by done.
  done.
Qed.

Lemma retry_after_rejected_update_witness :
  w_next (serve RoundDown sample_request (sample_db 0 9) msPerDay
            [None; None; Some (StoreError "write failed")])
  = Some (StoreError "write failed") /\
  sent (w_res (serve RoundDown sample_request (sample_db 0 9) msPerDay
                 [None; None; Some (StoreError "write failed")])) = None /\
  w_res (serve RoundDown sample_request
           (w_db (serve RoundDown sample_request (sample_db 0 9) msPerDay
                    [None; None; Some (StoreError "write failed")]))
           (2 * msPerDay) [])
  = mkRes 400 (Some (BText "Return already processed")) /\
  w_db (serve RoundDown sample_request
          (w_db (serve RoundDown sample_request (sample_db 0 9) msPerDay
                   [None; None; Some (StoreError "write failed")]))
          (2 * msPerDay) [])
  = w_db (serve RoundDown sample_request (sample_db 0 9) msPerDay
            [None; None; Some (StoreError "write failed")]) /\
  movies (w_db (serve RoundDown sample_request
                  (w_db (serve RoundDown sample_request (sample_db 0 9) msPerDay
                           [None; None; Some (StoreError "write failed")]))
                  (2 * msPerDay) []))
  = movies (sample_db 0 9).
Proof.
  apply (retry_after_rejected_update RoundDown sample_request (sample_db 0 9)
           msPerDay (2 * msPerDay)
           [None; None; Some (StoreError "write failed")] []
           (sample_rental 0) (StoreError "write failed")).
  - apply NoDup_singleton.
  - reflexivity.
  - reflexivity.
  - reflexivity.
  - reflexivity.
  - reflexivity.
  - reflexivity.
Defined.

(* ===================================================================== *)
(** ** Strings and rules *)
(* ===================================================================== *)

Lemma trim_start_length (ws : N -> bool) (s : JsString) :
  (length (trim_start ws s) <= length s)%nat.
Proof.
  induction s as [|c s IH]; simpl; [lia|].
  destruct (ws c); simpl; lia.
Qed.

Lemma js_trim_length (ws : N -> bool) (s : JsString) :
  (length (js_trim ws s) <= length s)%nat.
Proof.
  unfold js_trim. rewrite length_reverse.
  pose proof (trim_start_length ws (reverse (trim_start ws s))) as H1.
  rewrite length_reverse in H1.
  pose proof (trim_start_length ws s). lia.
Qed.

Lemma trim_start_id (ws : N -> bool) (s : JsString) :
  (forall c, head s = Some c -> ws c = false) -> trim_start ws s = s.
Proof.
  destruct s as [|c s]; simpl; [done|].
  intros H. by rewrite (H c eq_refl).
Qed.

Lemma js_trim_id (ws : N -> bool) (s : JsString) :
  trimmed ws s -> js_trim ws s = s.
Proof.
  intros [Hh Hl]. unfold js_trim.
  rewrite (trim_start_id ws s Hh).
  rewrite (trim_start_id ws (reverse s)).
  - apply reverse_involutive.
  - intros c Hc. apply Hl. by rewrite <- head_reverse.
Qed.

Lemma joi_string_None (lo hi : nat) (s : JsString) :
  (0 < lo)%nat ->
  joi_string lo hi s = None <-> (lo <= length s <= hi)%nat.
Proof.
  intros Hlo. unfold joi_string. destruct s as [|c s]; simpl.
  - split; [done|lia].
  - destruct (Nat.ltb_spec (S (length s)) lo); [split; [done|lia]|].
    destruct (Nat.ltb_spec hi (S (length s))); split; try done; lia.
Qed.

Lemma schema_string_None (ws : N -> bool) (trim required : bool)
    (lo hi : nat) (s : JsString) :
  (0 < lo)%nat ->
  schema_string ws trim required lo hi (Some s) = None <->
  (lo <= length (if trim then js_trim ws s else s) <= hi)%nat.
Proof.
  intros Hlo. unfold schema_string.
  replace (if trim then js_trim ws <$> Some s else Some s)
    with (Some (if trim then js_trim ws s else s)) by (by destruct trim).
  set (s' := if trim then js_trim ws s else s).
  case_bool_decide as E.
  - rewrite E. simpl. destruct required; simpl.
    + split; [done|lia].
    + destruct (Nat.ltb_spec 0 lo); [|lia]. split; [done|lia].
  - rewrite andb_false_r.
    destruct (Nat.ltb_spec (length s') lo); [split; [done|lia]|].
    destruct (Nat.ltb_spec hi (length s')); split; try done; lia.
Qed.

Lemma Qle_bool_false (x y : Q) : Qle_bool x y = false <-> (y < x)%Q.
Proof.
  rewrite <- not_true_iff_false, Qle_bool_iff. split.
  - apply Qnot_le_lt.
  - apply Qlt_not_le.
Qed.

Lemma joi_number_None (safe_only : bool) (lo : Q) (hi : option Q) (n : Q) :
  joi_number safe_only lo hi n = None ->
  (lo <= n)%Q /\ forall h, hi = Some h -> (n <= h)%Q.
Proof.
  unfold joi_number.
  destruct (safe_only && _); [done|].
  destruct (Qle_bool lo n) eqn:Hlo; simpl; [|done].
  apply Qle_bool_iff in Hlo. intros H. split; [done|].
  intros h ->. destruct (Qle_bool n h) eqn:Hhi; simpl in H; [|done].
  by apply Qle_bool_iff.
Qed.

Lemma schema_number_Some (required : bool) (default : option Q) (lo hi n : Q) :
  schema_number required default lo hi (Some n)
  = if negb (Qle_bool lo n) then Some TooSmall
    else if negb (Qle_bool n hi) then Some TooLarge else None.
Proof. reflexivity. Qed.

(** The schema's validators on a whole number in stock and on a rate are
    the bounds the workflow's model of a movie carries. *)
Lemma Movie_numberInStock_error_valid (m : Movie) :
  Movie_numberInStock_error (Some (inject_Z (numberInStock m))) = None
  <-> numberInStock_valid m.
Proof.
  unfold Movie_numberInStock_error, numberInStock_valid, numberInStock_min,
    numberInStock_max. rewrite schema_number_Some.
  destruct (Qle_bool 0 (inject_Z (numberInStock m))) eqn:H0; simpl.
  - apply Qle_bool_iff in H0. unfold Qle in H0. simpl in H0.
    destruct (Qle_bool (inject_Z (numberInStock m)) 255) eqn:H1; simpl.
    + apply Qle_bool_iff in H1. unfold Qle in H1. simpl in H1.
      split; [lia|done].
    + apply Qle_bool_false in H1. unfold Qlt in H1. simpl in H1.
      split; [done|lia].
  - apply Qle_bool_false in H0. unfold Qlt in H0. simpl in H0.
    split; [done|lia].
Qed.

(** What a body that [validateMovie] accepts holds. *)
Lemma validateMovie_accepts (safe_only : bool) (b : MovieBody) :
  validateMovie safe_only b = None ->
  exists (t g : JsString) (n q : Q),
    body_title b = Some t /\ body_genreId b = Some g /\
    body_numberInStock b = Some n /\ body_dailyRentalRate b = Some q /\
    (3 <= length t <= 50)%nat /\ joi_objectId g = None /\
    (0 <= n)%Q /\ (0 <= q)%Q /\ (q <= 10)%Q.
Proof.
  unfold validateMovie. simpl.
  destruct (body_title b) as [t|]; simpl; [|done].
  destruct (joi_string 3 50 t) eqn:Ht; [done|].
  apply joi_string_None in Ht; [|lia].
  destruct (body_genreId b) as [g|]; simpl; [|done].
  destruct (joi_objectId g) eqn:Hg; [done|].
  destruct (body_numberInStock b) as [n|]; simpl; [|done].
  destruct (joi_number safe_only 0 None n) eqn:Hn; [done|].
  apply joi_number_None in Hn as [Hn _].
  destruct (body_dailyRentalRate b) as [q|]; simpl; [|done].
  destruct (joi_number safe_only 0 (Some 10%Q) q) eqn:Hq; [done|].
  apply joi_number_None in Hq as [Hq Hq'].
  intros _. exists t, g, n, q. repeat split; auto; lia.
Qed.

(* ===================================================================== *)
(** ** [validateMovie] against the Movie schema *)
(* ===================================================================== *)

(** X10. A daily rate that [validateMovie] accepts (0 to 10) passes the
    validators of the Movie schema on [dailyRentalRate] (0 to 255),
    whichever version of the number rule is installed. *)
Theorem validateMovie_rate_passes_schema (safe_only : bool) (b : MovieBody) :
  validateMovie safe_only b = None ->
  exists q, body_dailyRentalRate b = Some q /\ (0 <= q)%Q /\ (q <= 10)%Q /\
    Movie_dailyRentalRate_error (body_dailyRentalRate b) = None.
Proof.
  intros H.
  destruct (validateMovie_accepts _ _ H) as (t & g & n & q & _ & _ & _ & Hq & _ & _ & _ & H0 & H10).
  exists q. rewrite Hq. repeat split; try done.
  unfold Movie_dailyRentalRate_error. rewrite schema_number_Some.
  apply Qle_bool_iff in H0. rewrite H0. simpl.
  assert (Qle_bool q 255 = true) as ->; [|done].
  apply Qle_bool_iff. apply (Qle_trans _ 10); [done|]. unfold Qle. simpl. lia.
Qed.

Lemma validateMovie_rate_passes_schema_witness :
  exists q, body_dailyRentalRate overstocked_body = Some q /\ (0 <= q)%Q /\ (q <= 10)%Q /\
    Movie_dailyRentalRate_error (body_dailyRentalRate overstocked_body) = None.
Proof.
  apply (validateMovie_rate_passes_schema true overstocked_body).
  reflexivity.
Defined.

(** X11. [validateMovie] puts no upper bound on [numberInStock]: of a body
    it accepts, the stock is not negative, and the Movie schema accepts
    that stock exactly when it is at most 255; above, the schema answers
    that the value is too large. *)
Theorem validateMovie_stock_unbounded (safe_only : bool) (b : MovieBody) :
  validateMovie safe_only b = None ->
  exists n, body_numberInStock b = Some n /\ (0 <= n)%Q /\
    (Movie_numberInStock_error (Some n) = None <-> (n <= 255)%Q) /\
    ((255 < n)%Q -> Movie_numberInStock_error (Some n) = Some TooLarge).
Proof.
  intros H.
  destruct (validateMovie_accepts _ _ H) as (t & g & n & q & _ & _ & Hn & _ & _ & _ & H0 & _).
  exists n. split; [done|]. split; [done|].
  unfold Movie_numberInStock_error. rewrite schema_number_Some.
  apply Qle_bool_iff in H0. rewrite H0. simpl.
  destruct (Qle_bool n 255) eqn:E; simpl.
  - apply Qle_bool_iff in E. split; [done|].
    intros Hlt. by apply Qlt_not_le in Hlt.
  - apply Qle_bool_false in E. split; [|done].
    split; [done|]. intros Hle. by apply Qlt_not_le in E.
Qed.

Lemma validateMovie_stock_unbounded_witness :
  exists n, body_numberInStock overstocked_body = Some n /\ (0 <= n)%Q /\
    (Movie_numberInStock_error (Some n) = None <-> (n <= 255)%Q) /\
    ((255 < n)%Q -> Movie_numberInStock_error (Some n) = Some TooLarge).
Proof.
  apply (validateMovie_stock_unbounded false overstocked_body).
  reflexivity.
Defined.

(** A body with 256 in stock: accepted by [validateMovie], rejected by the
    schema. *)
Example overstocked_body_accepted :
  validateMovie true overstocked_body = None /\
  validateMovie false overstocked_body = None /\
  Movie_numberInStock_error (body_numberInStock overstocked_body) = Some TooLarge.
Proof. repeat split; reflexivity. Qed.

(** X12. [validateMovie] measures the title as it is sent, the Movie
    schema after trimming it: of a body that [validateMovie] accepts, the
    schema accepts the title exactly when three code units or more are
    left after the trim, and always when the title neither begins nor
    ends with white space. *)
Theorem validateMovie_title_after_trim (safe_only : bool) (ws : N -> bool)
    (b : MovieBody) :
  validateMovie safe_only b = None ->
  exists s, body_title b = Some s /\ (3 <= length s <= 50)%nat /\
    (Movie_title_error ws (Some s) = None <-> (3 <= length (js_trim ws s))%nat) /\
    (trimmed ws s -> Movie_title_error ws (Some s) = None).
Proof.
  intros H.
  destruct (validateMovie_accepts _ _ H) as (t & g & n & q & Ht & _ & _ & _ & Hlen & _).
  exists t. split; [done|]. split; [done|].
  unfold Movie_title_error.
  pose proof (js_trim_length ws t) as Hle.
  split.
  - rewrite schema_string_None by lia. lia.
  - intros Htr. apply schema_string_None; [lia|].
    rewrite (js_trim_id ws t Htr). lia.
Qed.

Lemma validateMovie_title_after_trim_witness :
  exists s, body_title overstocked_body = Some s /\ (3 <= length s <= 50)%nat /\
    (Movie_title_error ecma_whitespace (Some s) = None
     <-> (3 <= length (js_trim ecma_whitespace s))%nat) /\
    (trimmed ecma_whitespace s -> Movie_title_error ecma_whitespace (Some s) = None).
Proof.
  apply (validateMovie_title_after_trim true ecma_whitespace overstocked_body).
  reflexivity.
Defined.

(** A title of five code units of which one is left after the trim. *)
Example padded_title :
  joi_string 3 50 (js "  a  ") = None /\
  js_trim ecma_whitespace (js "  a  ") = js "a" /\
  Movie_title_error ecma_whitespace (Some (js "  a  ")) = Some TooShort.
Proof. repeat split; reflexivity. Qed.

(* ===================================================================== *)
(** ** [validateCustomer] against the Customer schema *)
(* ===================================================================== *)

Lemma path_errors_nil3 (k1 k2 k3 : string) (e1 e2 e3 : option Broken) :
  path_errors [(k1, e1); (k2, e2); (k3, e3)] = []
  <-> e1 = None /\ e2 = None /\ e3 = None.
Proof.
  unfold path_errors. destruct e1, e2, e3; simpl; split; try done;
    intros (? & ? & ?); done.
Qed.

Lemma validateCustomer_None (c : CustomerFields) :
  validateCustomer c = None <->
  joi_presence true (joi_string 3 50) (name c) = None /\
  joi_presence true (joi_string 3 50) (phone c) = None /\
  joi_presence false (joi_string 3 255) (address c) = None.
Proof.
  unfold validateCustomer. simpl.
  destruct (joi_presence true (joi_string 3 50) (name c));
    destruct (joi_presence true (joi_string 3 50) (phone c));
    destruct (isGold c); simpl;
    destruct (joi_presence false (joi_string 3 255) (address c));
    split; try done; intros (? & ? & ?); done.
Qed.

(** X13. For a customer whose name and address neither begin nor end with
    white space, [validateCustomer] and the Customer schema agree: the
    one accepts exactly when the other reports no error; and the document
    then holds the name, the phone and the address as they were sent. *)
Theorem validateCustomer_agrees_with_schema (ws : N -> bool) (c : CustomerFields) :
  (forall s, name c = Some s -> trimmed ws s) ->
  (forall s, address c = Some s -> trimmed ws s) ->
  (validateCustomer c = None <-> Customer_validate ws c = []) /\
  name (Customer_new ws c) = name c /\
  phone (Customer_new ws c) = phone c /\
  address (Customer_new ws c) = address c.
Proof.
  intros Hn Ha.
  assert (En : js_trim ws <$> name c = name c).
  { destruct (name c) as [s|]; simpl; [|done]. by rewrite js_trim_id by auto. }
  assert (Ea : js_trim ws <$> address c = address c).
  { destruct (address c) as [s|]; simpl; [|done]. by rewrite js_trim_id by auto. }
  split; [|by simpl].
  rewrite validateCustomer_None. unfold Customer_validate.
  rewrite path_errors_nil3.
  assert (forall (tr rq : bool) hi v, (tr = true -> js_trim ws <$> v = v) ->
            joi_presence rq (joi_string 3 hi) v = None
            <-> schema_string ws tr rq 3 hi v = None) as Hsame.
  { intros tr rq hi [s|] Htr.
    - simpl. rewrite joi_string_None, schema_string_None by lia.
      destruct tr; [|done]. specialize (Htr eq_refl). simpl in Htr.
      injection Htr as ->. done.
    - unfold schema_string. simpl. destruct tr; simpl; by destruct rq. }
  rewrite (Hsame true true 50%nat (name c)) by done.
  rewrite (Hsame false true 50%nat (phone c)) by done.
  rewrite (Hsame true false 255%nat (address c)) by done.
  done.
Qed.

Lemma validateCustomer_agrees_with_schema_witness :
  (validateCustomer plain_customer = None
   <-> Customer_validate ecma_whitespace plain_customer = []) /\
  name (Customer_new ecma_whitespace plain_customer) = name plain_customer /\
  phone (Customer_new ecma_whitespace plain_customer) = phone plain_customer /\
  address (Customer_new ecma_whitespace plain_customer) = address plain_customer.
Proof.
  apply (validateCustomer_agrees_with_schema ecma_whitespace plain_customer).
  - intros s Hs. injection Hs as <-. split; intros c Hc; injection Hc as <-; reflexivity.
  - intros s Hs. injection Hs as <-. split; intros c Hc; injection Hc as <-; reflexivity.
Defined.

Example plain_customer_accepted :
  validateCustomer plain_customer = None /\
  Customer_validate ecma_whitespace plain_customer = [].
Proof. split; reflexivity. Qed.

(** X14. Of a customer that [validateCustomer] accepts, the Customer
    schema can only find the name or the address too short once trimmed:
    it reports no error exactly when the trimmed name and the trimmed
    address, if there is one, keep three code units or more, and it never
    reports an error on the phone. *)
Theorem validateCustomer_then_schema (ws : N -> bool) (c : CustomerFields) :
  validateCustomer c = None ->
  (Customer_validate ws c = [] <->
     (forall s, name c = Some s -> (3 <= length (js_trim ws s))%nat) /\
     (forall s, address c = Some s -> (3 <= length (js_trim ws s))%nat)) /\
  forall e, ("phone", e) ∉ Customer_validate ws c.
Proof.
  intros H. apply validateCustomer_None in H as (Hn & Hp & Ha).
  destruct (name c) as [n|] eqn:En; [|done]. simpl in Hn.
  destruct (phone c) as [p|] eqn:Ep; [|done]. simpl in Hp.
  apply joi_string_None in Hn; [|lia]. apply joi_string_None in Hp; [|lia].
  assert (Hps : schema_string ws false true 3 50 (Some p) = None)
    by (apply schema_string_None; [lia|done]).
  pose proof (js_trim_length ws n) as Hln.
  assert (Hadd : schema_string ws true false 3 255 (address c) = None
                 <-> forall s, address c = Some s -> (3 <= length (js_trim ws s))%nat).
  { destruct (address c) as [a|] eqn:Ea.
    - simpl in Ha. apply joi_string_None in Ha; [|lia].
      pose proof (js_trim_length ws a). rewrite schema_string_None by lia.
      split.
      + intros ? s [= <-]. lia.
      + intros Hs. specialize (Hs a eq_refl). lia.
    - split; [done|]. intros _. reflexivity. }
  unfold Customer_validate. rewrite En, Ep. split.
  - rewrite path_errors_nil3, Hadd, schema_string_None by lia. split.
    + intros (? & _ & ?). split; [|done]. intros s [= <-]. lia.
    + intros [Hs ?]. specialize (Hs n eq_refl). split; [lia|done].
  - intros e. rewrite Hps. unfold path_errors. simpl.
    destruct (schema_string ws true true 3 50 (Some n));
      destruct (schema_string ws true false 3 255 (address c)); simpl;
      intros Hin; in_trace Hin.
Qed.

Lemma validateCustomer_then_schema_witness :
  (Customer_validate ecma_whitespace padded_customer = [] <->
     (forall s, name padded_customer = Some s
        -> (3 <= length (js_trim ecma_whitespace s))%nat) /\
     (forall s, address padded_customer = Some s
        -> (3 <= length (js_trim ecma_whitespace s))%nat)) /\
  forall e, ("phone", e) ∉ Customer_validate ecma_whitespace padded_customer.
Proof.
  apply (validateCustomer_then_schema ecma_whitespace padded_customer).
  reflexivity.
Defined.

(** A name of five code units of which one is left after the trim:
    accepted by [validateCustomer], too short for the schema. *)
Example padded_customer_rejected :
  validateCustomer padded_customer = None /\
  Customer_validate ecma_whitespace padded_customer = [("name", TooShort)].
Proof. split; reflexivity. Qed.

(* ===================================================================== *)
(** ** [validateReturn] and the identifiers of a request *)
(* ===================================================================== *)

Lemma hex_value_is_Some (c : N) :
  is_Some (hex_value c) <-> is_hex_digit c = true.
Proof.
  unfold hex_value, is_hex_digit.
  destruct ((48 <=? c)%N && (c <=? 57)%N); simpl; [by split; eauto|].
  destruct ((65 <=? c)%N && (c <=? 70)%N); simpl; [by split; eauto|].
  destruct ((97 <=? c)%N && (c <=? 102)%N); simpl; [by split; eauto|].
  split; [by intros [? ?]|done].
Qed.

Lemma hex_value_lt (c d : N) : hex_value c = Some d -> (d < 16)%N.
Proof.
  unfold hex_value.
  destruct (N.leb_spec 48 c), (N.leb_spec c 57); simpl; try (intros [= <-]; lia);
    destruct (N.leb_spec 65 c), (N.leb_spec c 70); simpl; try (intros [= <-]; lia);
    destruct (N.leb_spec 97 c), (N.leb_spec c 102); simpl;
    try (intros [= <-]; lia); done.
Qed.

Lemma hex_number_is_Some (acc : N) (s : JsString) :
  is_Some (hex_number acc s) <-> forallb is_hex_digit s = true.
Proof.
  revert acc. induction s as [|c s IH]; intros acc; simpl.
  - split; eauto.
  - rewrite andb_true_iff, <- hex_value_is_Some.
    destruct (hex_value c) as [d|]; simpl.
    + rewrite IH. split; [by eauto|tauto].
    + split; [by intros [? ?]|]. by intros [[? ?] _].
Qed.

Lemma hex_number_lt (acc : N) (s : JsString) (n : N) :
  hex_number acc s = Some n -> (n < (acc + 1) * 16 ^ N.of_nat (length s))%N.
Proof.
  revert acc. induction s as [|c s IH]; intros acc; simpl length.
  - simpl. intros [= <-]. lia.
  - simpl hex_number. destruct (hex_value c) as [d|] eqn:Hd; [|done].
    intros H. apply IH in H. apply hex_value_lt in Hd.
    rewrite Nat2N.inj_succ, N.pow_succ_r'. nia.
Qed.

Lemma joi_objectId_None (s : JsString) :
  joi_objectId s = None <-> is_Some (objectId_of s).
Proof.
  destruct s as [|c s]; [split; [done|by intros [? ?]]|].
  unfold joi_objectId, objectId_of.
  destruct (length (c :: s) =? 24)%nat.
  - rewrite andb_true_r, hex_number_is_Some.
    destruct (forallb is_hex_digit (c :: s)); split; done.
  - rewrite andb_false_r. split; [done|]. by intros [? ?].
Qed.

Lemma required_objectId_None (v : option JsString) :
  joi_presence true joi_objectId v = None <-> is_Some (v ≫= objectId_of).
Proof.
  destruct v as [s|]; simpl.
  - apply joi_objectId_None.
  - split; [done|]. by intros [? ?].
Qed.

(** X15. [validateReturn] accepts a body exactly when both identifiers are
    present and stand for ObjectIds, that is when there is a request for
    the handler to work on; and the identifiers of that request are
    96-bit values. *)
Theorem validateReturn_accepts_objectIds (b : ReturnBody) :
  (validateReturn b = None <-> is_Some (request_of_body b)) /\
  forall req, request_of_body b = Some req ->
    (customerId req < 2 ^ 96)%N /\ (movieId req < 2 ^ 96)%N.
Proof.
  unfold validateReturn, request_of_body. split.
  - pose proof (required_objectId_None (body_customerId b)) as Hc.
    pose proof (required_objectId_None (body_movieId b)) as Hm.
    simpl.
    destruct (joi_presence true joi_objectId (body_customerId b));
      destruct (body_customerId b ≫= objectId_of) as [ci|];
      try (destruct (proj1 Hc eq_refl) as [? [=]]);
      try (destruct Hc as [_ Hc]; discriminate (Hc (mk_is_Some _ _ eq_refl)));
      try (split; [done|by intros [? ?]]).
    destruct (joi_presence true joi_objectId (body_movieId b));
      destruct (body_movieId b ≫= objectId_of) as [mi|];
      try (destruct (proj1 Hm eq_refl) as [? [=]]);
      try (destruct Hm as [_ Hm]; discriminate (Hm (mk_is_Some _ _ eq_refl)));
      try (split; [done|by intros [? ?]]).
  - intros req.
    destruct (body_customerId b) as [c|]; simpl; [|done].
    destruct (objectId_of c) as [ci|] eqn:Hc; [|done].
    destruct (body_movieId b) as [m|]; simpl; [|done].
    destruct (objectId_of m) as [mi|] eqn:Hm; [|done].
    intros [= <-]. simpl.
    unfold objectId_of in Hc, Hm.
    destruct (Nat.eqb_spec (length c) 24) as [Ec|]; [|done].
    destruct (Nat.eqb_spec (length m) 24) as [Em|]; [|done].
    apply hex_number_lt in Hc, Hm. rewrite Ec in Hc. rewrite Em in Hm.
    change ((0 + 1) * 16 ^ N.of_nat 24)%N with (2 ^ 96)%N in Hc, Hm. done.
Qed.

(** A well-formed body and the request it stands for; a body whose
    customer identifier is one digit short. *)
Example return_body_accepted :
  validateReturn (mkReturnBody (Some hex24) (Some (js "00000000000000000000000A"))) = None /\
  movieId <$> request_of_body
                (mkReturnBody (Some hex24) (Some (js "00000000000000000000000A")))
  = Some 10%N /\
  validateReturn (mkReturnBody (Some (js "5f1e7b9a2c4d6e8f0a1b3c5")) (Some hex24))
  = Some ("customerId", NotObjectId) /\
  request_of_body (mkReturnBody (Some (js "5f1e7b9a2c4d6e8f0a1b3c5")) (Some hex24))
  = None.
Proof. repeat split; reflexivity. Qed.

(** The empty string breaks the rule of the string before the pattern, and
    an absent key the presence. *)
Example return_body_empty :
  validateReturn (mkReturnBody (Some []) (Some hex24)) = Some ("customerId", IsEmpty) /\
  validateReturn (mkReturnBody (Some hex24) None) = Some ("movieId", IsRequired).
Proof. split; reflexivity. Qed.
